(** * my-dashboard: the two API routes, [src/pages/api/anki.ts] and
    [src/pages/api/goodreads.ts]

    Both routes are [async] handlers that make one outbound [fetch], reshape the
    reply and build a [Response].  They are embedded as computations in a small
    monad [Async] that threads what the code threads: the values that are thrown
    and caught, and the effects on the outside world (outbound requests, console
    lines).  Everything the handler cannot decide by itself (the environment
    variables, what the network answers, the engine's built-ins) is a field of
    the [World] the handler runs in, so a theorem that quantifies over [World]
    speaks about every invocation. *)

From Stdlib Require Import PrimFloat FloatAxioms.
From Stdlib Require Import NArith ZArith List String Ascii Bool Lia.
From Stdlib Require Import DecimalString.
Import ListNotations.

Local Open Scope list_scope.
Set Warnings "-register-all".

(** ** JavaScript data *)

(** A JavaScript string is a sequence of 16-bit code units. *)
Definition code_unit := N.
Definition jsstring := list code_unit.

(** The code units of a source literal (the literals of both routes are ASCII). *)
Definition js (s : string) : jsstring :=
  map N_of_ascii (list_ascii_of_string s).

Fixpoint jsstring_eqb (s t : jsstring) : bool :=
  match s, t with
  | [], [] => true
  | c :: s', d :: t' => N.eqb c d && jsstring_eqb s' t'
  | _, _ => false
  end.

(** A JavaScript [number] is an IEEE 754 double. *)
Definition number := PrimFloat.float.

(** The values the routes handle: what [JSON.parse] produces, the object
    literals the routes build, and [undefined] (the value of a missing
    property).  An object is the list of its own properties, looked up by key
    from the front. *)
Inductive jsval : Type :=
| JUndefined
| JNull
| JBool (b : bool)
| JNum (n : number)
| JStr (s : jsstring)
| JArr (items : list jsval)
| JObj (props : list (jsstring * jsval)).

(** ToBoolean: what [if (v)], [!v] and [v || w] test. *)
Definition truthy (v : jsval) : bool :=
  match v with
  | JUndefined | JNull => false
  | JBool b => b
  | JNum n => negb (PrimFloat.eqb n 0%float) && negb (PrimFloat.is_nan n)
  | JStr s => match s with [] => false | _ :: _ => true end
  | JArr _ | JObj _ => true
  end.

(** [v || w] *)
Definition js_or (v w : jsval) : jsval := if truthy v then v else w.

Fixpoint own_property (k : jsstring) (props : list (jsstring * jsval)) : jsval :=
  match props with
  | [] => JUndefined
  | (k', v) :: rest => if jsstring_eqb k k' then v else own_property k rest
  end.

(** What the code can [throw] and [catch]: an instance of [Error] (which has a
    [message]), or any other value. *)
Inductive thrown : Type :=
| ErrorObj (message : jsstring)
| NonError (v : jsval).

(** [error instanceof Error ? error.message : fallback] *)
Definition message_or (fallback : jsstring) (error : thrown) : jsstring :=
  match error with
  | ErrorObj m => m
  | NonError _ => fallback
  end.

(** A computation either returns or throws. *)
Inductive outcome (A : Type) : Type :=
| Returned (a : A)
| Thrown (e : thrown).
Arguments Returned {A} a.
Arguments Thrown {A} e.

(** ** HTTP: requests, the replies [fetch] resolves to, the responses a route builds *)

Definition header := (jsstring * jsstring)%type.

(** [JSON.stringify(v)]: a body is the JSON text of a value, kept as the value
    that was handed to [JSON.stringify]; [json_of] below gives the value that
    the text denotes. *)
Inductive body_text : Type :=
| JSON_stringify (v : jsval).

(** The arguments of one [fetch(url, init)] call. *)
Record Request : Type := {
  url : jsstring;
  method : jsstring;
  req_headers : list header;
  req_body : option body_text
}.

(** What [fetch] resolved to, as far as the routes look at it: the status line
    and what the two body readers [json()] and [text()] settle to. *)
Record FetchResponse : Type := {
  resp_status : N;
  resp_json : outcome jsval;
  resp_text : outcome jsstring
}.

(** [response.ok]: the status is in the range 200-299. *)
Definition ok (r : FetchResponse) : bool :=
  N.leb 200 (resp_status r) && N.leb (resp_status r) 299.

(** [new Response(body, { status, headers })] *)
Record Response : Type := {
  body : body_text;
  status : Z;
  headers : list header
}.

(** ** The world a handler runs in *)

(** [import.meta.env]: a variable is a string or is not set. *)
Record ImportMetaEnv : Type := {
  ANKI_CONNECT_HOST : option jsstring;
  GOODREADS_KEY : option jsstring;
  GOODREADS_SECRET : option jsstring;
  GOODREADS_USER_ID : option jsstring
}.

(** Built-ins of the engine and of the [oauth-1.0a] package that the routes
    call and this repository does not define. *)
Record Host : Type := {
  (** [parseInt(s)] *)
  parseInt : jsstring -> number;
  (** the message of the [TypeError] for reading property [k] of [null] or
      [undefined] *)
  nullish_access_message : jsstring -> jsstring;
  (** the message of the [Error] that [throw new Error(v)] throws for a [v] that
      is not a string: ToString(v), or the message of the [TypeError] of a
      conversion that fails *)
  coerced_message : jsval -> jsstring;
  (** [oauth.toHeader(oauth.authorize(requestData))] for a consumer key and
      secret, a url and a method (the nonce and the timestamp are the host's) *)
  oauth_header : jsstring -> jsstring -> jsstring -> jsstring -> outcome (list header)
}.

Record World : Type := {
  env : ImportMetaEnv;
  host : Host;
  (** what [fetch] settles to for a request, given the requests sent before it *)
  network : list Request -> Request -> outcome FetchResponse
}.

(** The effects of an invocation that are visible outside it, in order. *)
Inductive event : Type :=
| Fetch (r : Request)
| ConsoleError (label : jsstring) (error : thrown).

Definition trace := list event.

Fixpoint requests (t : trace) : list Request :=
  match t with
  | [] => []
  | Fetch r :: t' => r :: requests t'
  | ConsoleError _ _ :: t' => requests t'
  end.

Fixpoint console (t : trace) : list (jsstring * thrown) :=
  match t with
  | [] => []
  | Fetch _ :: t' => console t'
  | ConsoleError l e :: t' => (l, e) :: console t'
  end.

(** ** The monad of [async] code *)

(** An [async] computation reads the world, extends the trace of effects, and
    settles: [Returned] is a promise that resolves, [Thrown] one that rejects. *)
Definition Async (A : Type) : Type := World -> trace -> outcome A * trace.

Definition ret {A} (a : A) : Async A := fun _ t => (Returned a, t).

Definition throw {A} (e : thrown) : Async A := fun _ t => (Thrown e, t).

Definition bind {A B} (m : Async A) (k : A -> Async B) : Async B :=
  fun W t =>
    match m W t with
    | (Returned a, t') => k a W t'
    | (Thrown e, t') => (Thrown e, t')
    end.

(** [try { m } catch (error) { h }] *)
Definition try_catch {A} (m : Async A) (h : thrown -> Async A) : Async A :=
  fun W t =>
    match m W t with
    | (Returned a, t') => (Returned a, t')
    | (Thrown e, t') => h e W t'
    end.

(** [await p] for a promise whose settlement is known *)
Definition await {A} (p : outcome A) : Async A := fun _ t => (p, t).

Definition ask : Async World := fun W t => (Returned W, t).

(** [await fetch(url, init)] *)
Definition fetch (r : Request) : Async FetchResponse :=
  fun W t => (network W (requests t) r, t ++ [Fetch r]).

(** [console.error(label, error)] *)
Definition console_error (label : jsstring) (error : thrown) : Async unit :=
  fun _ t => (Returned tt, t ++ [ConsoleError label error]).

Declare Scope async_scope.
Delimit Scope async_scope with async.
Notation "x <- m ;; k" := (bind m (fun x => k))
  (at level 61, m at next level, right associativity) : async_scope.
Notation "m ;; k" := (bind m (fun _ => k))
  (at level 61, right associativity) : async_scope.
Notation "'try' m 'catch' x => h" := (try_catch m (fun x => h))
  (at level 10, m at level 200, x name, h at level 200) : async_scope.
Bind Scope async_scope with Async.

(** One invocation of a handler in a world: how it settles, and its effects. *)
Definition invoke {A} (h : Async A) (W : World) : outcome A * trace := h W [].

Definition settles {A} (h : Async A) (W : World) : outcome A := fst (invoke h W).
Definition effects {A} (h : Async A) (W : World) : trace := snd (invoke h W).

(** [null] and [undefined] have no properties. *)
Definition nullish (v : jsval) : bool :=
  match v with
  | JUndefined | JNull => true
  | _ => false
  end.

(** The value of [v.k] for a [v] that is not nullish and a name [k] that no
    built-in prototype defines (the routes read [error] and [result]): the own
    property of an object, [undefined] for anything else. *)
Definition property (v : jsval) (k : jsstring) : jsval :=
  match v with
  | JObj props => own_property k props
  | _ => JUndefined
  end.

(** [v.k]: reading a property off [null] or [undefined] throws a [TypeError]. *)
Definition get_prop (v : jsval) (k : jsstring) : Async jsval :=
  fun W t =>
    if nullish v
    then (Thrown (ErrorObj (nullish_access_message (host W) k)), t)
    else (Returned (property v k), t).

(** [new Error(v)] *)
Definition new_Error (H : Host) (v : jsval) : thrown :=
  match v with
  | JStr s => ErrorObj s
  | _ => ErrorObj (coerced_message H v)
  end.

(** [env.X || fallback] and [!env.X] for an environment variable *)
Definition env_or (x : option jsstring) (fallback : jsstring) : jsstring :=
  match x with
  | Some (c :: s) => c :: s
  | _ => fallback
  end.

Definition env_missing (x : option jsstring) : bool :=
  match x with
  | Some (_ :: _) => false
  | _ => true
  end.

(** The number as a template literal prints it. *)
Definition decimal (n : N) : jsstring := js (NilZero.string_of_uint (N.to_uint n)).

(** ** Reading a response *)

(** The object a route handed to [JSON.stringify] for the body of its
    response, and one property of that object.  What the reader of the body
    finds is [body_json] and [body_field] below: the same for booleans,
    strings, [null] and finite numbers, and [null] for a number that is not
    finite. *)
Definition payload (r : Response) : jsval :=
  match body r with JSON_stringify v => v end.

Definition field (r : Response) (k : string) : jsval :=
  property (payload r) (js k).

Fixpoint header_value (name : jsstring) (hs : list header) : option jsstring :=
  match hs with
  | [] => None
  | (n, v) :: rest => if jsstring_eqb name n then Some v else header_value name rest
  end.

Definition cache_control (r : Response) : option jsstring :=
  header_value (js "Cache-Control") (headers r).

Definition content_type (r : Response) : option jsstring :=
  header_value (js "Content-Type") (headers r).

(** ** [src/pages/api/anki.ts] *)

Module Anki.

Local Open Scope async_scope.

Definition default_host : jsstring := js "http://localhost:8765".

Definition json_content_type : header := (js "Content-Type", js "application/json").

(** The cache headers of the two return sites. *)
Definition success_cache : jsstring :=
  js "public, s-maxage=300, stale-while-revalidate=600".
Definition failure_cache : jsstring :=
  js "public, s-maxage=60, stale-while-revalidate=300".

(** The body of the outbound call:
    [JSON.stringify({ action: 'getNumCardsReviewedToday', version: 6 })] *)
Definition rpc_body : body_text :=
  JSON_stringify
    (JObj [ (js "action", JStr (js "getNumCardsReviewedToday"));
            (js "version", JNum 6%float) ]).

Definition rpc_request (ankiHost : jsstring) : Request :=
  {| url := ankiHost;
     method := js "POST";
     req_headers := [ json_content_type ];
     req_body := Some rpc_body |}.

(** [export const GET: APIRoute = async () => { ... }] *)
Definition GET : Async Response :=
  W <- ask ;;
  let ankiHost := env_or (ANKI_CONNECT_HOST (env W)) default_host in
  try
    (response <- fetch (rpc_request ankiHost) ;;
     if negb (ok response)
     then throw (ErrorObj (js "AnkiConnect is offline or unreachable"))
     else
       data <- await (resp_json response) ;;
       data_error <- get_prop data (js "error") ;;
       if truthy data_error
       then throw (new_Error (host W) data_error)
       else
         data_result <- get_prop data (js "result") ;;
         let result :=
           JObj [ (js "today", js_or data_result (JNum 0%float));
                  (js "error", JBool false) ] in
         ret {| body := JSON_stringify result;
                status := 200;
                headers := [ json_content_type;
                             (js "Cache-Control", success_cache) ] |})
  catch error =>
    (console_error (js "AnkiConnect error:") error ;;
     let result :=
       JObj [ (js "today", JNum 0%float);
              (js "error", JBool true);
              (js "message", JStr (message_or (js "AnkiConnect offline") error)) ] in
     ret {| body := JSON_stringify result;
            status := 200;
            headers := [ json_content_type;
                         (js "Cache-Control", failure_cache) ] |}).

(** *** What the AnkiConnect endpoint can answer *)

(** The host the route calls: [ANKI_CONNECT_HOST] when it is set and not
    empty, the local default otherwise. *)
Definition configured_host (W : World) : jsstring :=
  env_or (ANKI_CONNECT_HOST (env W)) default_host.

(** The settlement of the route's call to the configured host. *)
Definition answer (W : World) : outcome FetchResponse :=
  network W [] (rpc_request (configured_host W)).

(** The call fails: [fetch] rejects (network error), the status is not ok, the
    body is not JSON, the reply is [null], or the reply carries an error. *)
Inductive call_fails (W : World) : Prop :=
| network_error e :
    answer W = Thrown e -> call_fails W
| status_not_ok r :
    answer W = Returned r -> ok r = false -> call_fails W
| body_unreadable r e :
    answer W = Returned r -> ok r = true -> resp_json r = Thrown e ->
    call_fails W
| reply_nullish r data :
    answer W = Returned r -> ok r = true -> resp_json r = Returned data ->
    nullish data = true -> call_fails W
| reply_error r data :
    answer W = Returned r -> ok r = true -> resp_json r = Returned data ->
    nullish data = false -> truthy (property data (js "error")) = true ->
    call_fails W.

(** The call succeeds with the reply [data]: ok status, a JSON reply, and no
    error in it (the [error] property is absent, [null] or otherwise falsy). *)
Definition call_succeeds (W : World) (data : jsval) : Prop :=
  exists r,
    answer W = Returned r /\ ok r = true /\ resp_json r = Returned data /\
    nullish data = false /\ truthy (property data (js "error")) = false.

(** [data.result || 0] *)
Definition reviewed_today (data : jsval) : jsval :=
  js_or (property data (js "result")) (JNum 0%float).

(** The responses of the two return sites, by what they depend on: the reply,
    and the value that was caught. *)
Definition reviewed (data : jsval) : Response :=
  {| body := JSON_stringify (JObj [ (js "today", reviewed_today data);
                                    (js "error", JBool false) ]);
     status := 200;
     headers := [ json_content_type; (js "Cache-Control", success_cache) ] |}.

Definition unavailable (error : thrown) : Response :=
  {| body := JSON_stringify
               (JObj [ (js "today", JNum 0%float);
                       (js "error", JBool true);
                       (js "message",
                        JStr (message_or (js "AnkiConnect offline") error)) ]);
     status := 200;
     headers := [ json_content_type; (js "Cache-Control", failure_cache) ] |}.

End Anki.

(** ** [src/pages/api/goodreads.ts] *)

(** *** The three regular expressions of the route

    All three have the shape [literal X*? literal], with one lazy run between
    two literals.  [String.prototype.match] tries the start positions from the
    left; at each, the lazy run grows one code unit at a time until the closing
    literal matches, and the position is given up when the run meets a code unit
    outside its class. *)

(** The rest of [s] after the literal [p], when [s] starts with it. *)
Fixpoint after_literal (p s : jsstring) : option jsstring :=
  match p, s with
  | [], _ => Some s
  | c :: p', d :: s' => if N.eqb c d then after_literal p' s' else None
  | _ :: _, [] => None
  end.

(** [X*? close] at the front of [s]: the run that was captured. *)
Fixpoint lazy_run (class : code_unit -> bool) (close s : jsstring) {struct s}
  : option jsstring :=
  match after_literal close s with
  | Some _ => Some []
  | None =>
      match s with
      | [] => None
      | c :: s' =>
          if class c
          then option_map (cons c) (lazy_run class close s')
          else None
      end
  end.

(** The match object of [s.match(/open X*? close/)]: element 0 (the matched
    text) and element 1 (the run, which the title and pages expressions
    capture), or [None] for [null]. *)
Fixpoint regex_match (open : jsstring) (class : code_unit -> bool)
    (close s : jsstring) {struct s} : option (jsstring * jsstring) :=
  let here :=
    match after_literal open s with
    | Some rest => lazy_run class close rest
    | None => None
    end in
  match here with
  | Some run => Some (open ++ run ++ close, run)
  | None =>
      match s with
      | [] => None
      | _ :: s' => regex_match open class close s'
      end
  end.

(** [[\s\S]]: every code unit. *)
Definition any_code_unit (c : code_unit) : bool := true.

(** [.] (no [s] flag): every code unit but the line terminators LF, CR, LS, PS. *)
Definition not_line_terminator (c : code_unit) : bool :=
  negb (N.eqb c 10 || N.eqb c 13 || N.eqb c 8232 || N.eqb c 8233).

Module Goodreads.

Local Open Scope async_scope.

(** [interface Book] *)
Record Book : Type := {
  title : jsstring;
  progress : number;
  pages : number;
  current : bool
}.

(** The object literal [{ title, progress, pages, current: true }] as a value. *)
Definition Book_value (b : Book) : jsval :=
  JObj [ (js "title", JStr (title b));
         (js "progress", JNum (progress b));
         (js "pages", JNum (pages b));
         (js "current", JBool (current b)) ].

Definition json_content_type : header := (js "Content-Type", js "application/json").

(** The cache headers of the return sites: one literal for the three returns
    outside the [catch] block, another one inside it. *)
Definition long_cache : jsstring :=
  js "public, s-maxage=600, stale-while-revalidate=1800".
Definition short_cache : jsstring :=
  js "public, s-maxage=60, stale-while-revalidate=300".

(** The quotation mark, U+0022. *)
Definition quotation_mark : jsstring := [34%N].

(** [/<shelf name="currently-reading"[\s\S]*?<\/review>/] *)
Definition shelf_open : jsstring :=
  js "<shelf name=" ++ quotation_mark ++ js "currently-reading" ++ quotation_mark.

Definition currently_reading (xmlText : jsstring) : option (jsstring * jsstring) :=
  regex_match shelf_open any_code_unit (js "</review>") xmlText.

(** [/<title><!\[CDATA\[(.*?)\]\]><\/title>/] *)
Definition title_of (review : jsstring) : option (jsstring * jsstring) :=
  regex_match (js "<title><![CDATA[") not_line_terminator (js "]]></title>") review.

(** [/<num_pages>(.*?)<\/num_pages>/] *)
Definition num_pages_of (review : jsstring) : option (jsstring * jsstring) :=
  regex_match (js "<num_pages>") not_line_terminator (js "</num_pages>") review.

(** [`https://www.goodreads.com/review/list/${GOODREADS_USER_ID}.xml`] *)
Definition list_url (user_id : jsstring) : jsstring :=
  js "https://www.goodreads.com/review/list/" ++ user_id ++ js ".xml".

Definition list_request (user_id : jsstring) (authHeader : list header) : Request :=
  {| url := list_url user_id;
     method := js "GET";
     req_headers := authHeader;
     req_body := None |}.

(** The three payloads without a book. *)
Definition not_configured : jsval :=
  JObj [ (js "error", JBool true);
         (js "message", JStr (js "Goodreads credentials not configured"));
         (js "book", JNull) ].

Definition no_active_book : jsval :=
  JObj [ (js "error", JBool false);
         (js "book", JNull);
         (js "message", JStr (js "No currently reading book")) ].

Definition lookup_failed (error : thrown) : jsval :=
  JObj [ (js "error", JBool true);
         (js "message", JStr (message_or (js "Unknown error") error));
         (js "book", JNull) ].

Definition respond (payload : jsval) (cache : jsstring) : Response :=
  {| body := JSON_stringify payload;
     status := 200;
     headers := [ json_content_type; (js "Cache-Control", cache) ] |}.

(** A variable of [import.meta.env] as the string the code goes on with once
    [!x] was false. *)
Definition env_string (x : option jsstring) : jsstring :=
  match x with
  | Some s => s
  | None => []
  end.

(** [export const GET: APIRoute = async () => { ... }] *)
Definition GET : Async Response :=
  W <- ask ;;
  let key := GOODREADS_KEY (env W) in
  let secret := GOODREADS_SECRET (env W) in
  let user_id := GOODREADS_USER_ID (env W) in
  if env_missing key || env_missing secret || env_missing user_id
  then ret (respond not_configured long_cache)
  else
    try
      (let requestData_url := list_url (env_string user_id) in
       let requestData_method := js "GET" in
       authHeader <- await (oauth_header (host W) (env_string key) (env_string secret)
                                         requestData_url requestData_method) ;;
       response <- fetch (list_request (env_string user_id) authHeader) ;;
       if negb (ok response)
       then throw (ErrorObj (js "Goodreads API error: " ++ decimal (resp_status response)))
       else
         xmlText <- await (resp_text response) ;;
         match currently_reading xmlText with
         | None => ret (respond no_active_book long_cache)
         | Some (review, _) =>
             let title :=
               match title_of review with
               | Some (_, t) => t
               | None => js "Unknown Book"
               end in
             let pages :=
               match num_pages_of review with
               | Some (_, p) => parseInt (host W) p
               | None => 0%float
               end in
             let progress := 0%float in
             let book :=
               {| title := title; progress := progress; pages := pages;
                  current := true |} in
             ret (respond (JObj [ (js "error", JBool false);
                                  (js "book", Book_value book) ])
                          long_cache)
         end)
    catch error =>
      (console_error (js "Goodreads API error:") error ;;
       ret (respond (lookup_failed error) short_cache)).

(** *** What the Goodreads lookup can come to *)

Definition credentials_missing (W : World) : bool :=
  env_missing (GOODREADS_KEY (env W))
  || env_missing (GOODREADS_SECRET (env W))
  || env_missing (GOODREADS_USER_ID (env W)).

(** The signed header of the request, and the settlement of the route's call
    when it is sent with the header [authHeader]. *)
Definition signature (W : World) : outcome (list header) :=
  oauth_header (host W)
    (env_string (GOODREADS_KEY (env W))) (env_string (GOODREADS_SECRET (env W)))
    (list_url (env_string (GOODREADS_USER_ID (env W)))) (js "GET").

Definition answer (W : World) (authHeader : list header) : outcome FetchResponse :=
  network W [] (list_request (env_string (GOODREADS_USER_ID (env W))) authHeader).

(** The lookup fails: a credential is missing, the request cannot be signed,
    [fetch] rejects (network error), the status is not a success, or the body
    cannot be read. *)
Inductive lookup_fails (W : World) : Prop :=
| credentials_not_configured :
    credentials_missing W = true -> lookup_fails W
| signing_fails e :
    credentials_missing W = false -> signature W = Thrown e -> lookup_fails W
| network_error h e :
    credentials_missing W = false -> signature W = Returned h ->
    answer W h = Thrown e -> lookup_fails W
| status_not_ok h r :
    credentials_missing W = false -> signature W = Returned h ->
    answer W h = Returned r -> ok r = false -> lookup_fails W
| body_unreadable h r e :
    credentials_missing W = false -> signature W = Returned h ->
    answer W h = Returned r -> ok r = true -> resp_text r = Thrown e ->
    lookup_fails W.

(** The lookup succeeds with the review list [xmlText]. *)
Definition lookup_succeeds (W : World) (xmlText : jsstring) : Prop :=
  credentials_missing W = false /\
  exists h r,
    signature W = Returned h /\ answer W h = Returned r /\
    ok r = true /\ resp_text r = Returned xmlText.

(** The book the route makes of a match of the currently-reading expression. *)
Definition book_of (H : Host) (review : jsstring) : Book :=
  {| title := match title_of review with
              | Some (_, t) => t
              | None => js "Unknown Book"
              end;
     progress := 0%float;
     pages := match num_pages_of review with
              | Some (_, p) => parseInt H p
              | None => 0%float
              end;
     current := true |}.

Definition found (b : Book) : jsval :=
  JObj [ (js "error", JBool false); (js "book", Book_value b) ].

(** What the route answers to a review list. *)
Definition reshaped (H : Host) (xmlText : jsstring) : jsval :=
  match currently_reading xmlText with
  | None => no_active_book
  | Some (review, _) => found (book_of H review)
  end.

(** The request the route sends once the header is signed. *)
Definition signed_request (W : World) (authHeader : list header) : Request :=
  list_request (env_string (GOODREADS_USER_ID (env W))) authHeader.

End Goodreads.

(** ** The static fallback file and sample worlds *)

(** [src/data/kobo.json], with the content the build plan gives it (Step 6). *)
Definition example_book : Goodreads.Book :=
  {| Goodreads.title := js "Example Book";
     Goodreads.progress := 0%float;
     Goodreads.pages := 300%float;
     Goodreads.current := true |}.

Definition kobo_json : list Goodreads.Book := [ example_book ].

(** [kobo.find(b => b.current)]: the fallback record of the book marked current. *)
Definition fallback_record (kobo : list Goodreads.Book) : option Goodreads.Book :=
  find Goodreads.current kobo.

Module Sample.

(** A [parseInt] for runs of decimal digits: the value of the leading digits,
    [NaN] when there is none. *)
Definition digit (c : code_unit) : option number :=
  match c with
  | 48%N => Some 0%float | 49%N => Some 1%float | 50%N => Some 2%float
  | 51%N => Some 3%float | 52%N => Some 4%float | 53%N => Some 5%float
  | 54%N => Some 6%float | 55%N => Some 7%float | 56%N => Some 8%float
  | 57%N => Some 9%float
  | _ => None
  end.

Fixpoint leading_digits (seen : option number) (s : jsstring) : option number :=
  match s with
  | [] => seen
  | c :: s' =>
      match digit c with
      | Some d =>
          leading_digits
            (Some (match seen with
                   | Some n => PrimFloat.add (PrimFloat.mul n 10%float) d
                   | None => d
                   end)) s'
      | None => seen
      end
  end.

Definition engine : Host :=
  {| parseInt := fun s =>
       match leading_digits None s with Some n => n | None => PrimFloat.nan end;
     nullish_access_message := fun k =>
       js "Cannot read properties of null (reading '" ++ k ++ js "')";
     coerced_message := fun _ => js "[object Object]";
     oauth_header := fun key _ _ _ =>
       Returned [ (js "Authorization", js "OAuth oauth_consumer_key=" ++ key) ] |}.

Definition nothing_set : ImportMetaEnv :=
  {| ANKI_CONNECT_HOST := None;
     GOODREADS_KEY := None;
     GOODREADS_SECRET := None;
     GOODREADS_USER_ID := None |}.

Definition configured : ImportMetaEnv :=
  {| ANKI_CONNECT_HOST := Some (js "http://127.0.0.1:8765");
     GOODREADS_KEY := Some (js "your_dev_key");
     GOODREADS_SECRET := Some (js "your_dev_secret");
     GOODREADS_USER_ID := Some (js "12345678") |}.

(** Nothing listens: every [fetch] rejects. *)
Definition offline (e : ImportMetaEnv) : World :=
  {| env := e;
     host := engine;
     network := fun _ _ => Thrown (ErrorObj (js "fetch failed")) |}.

(** Every [fetch] resolves with the given status and body readers. *)
Definition answering (e : ImportMetaEnv) (r : FetchResponse) : World :=
  {| env := e;
     host := engine;
     network := fun _ _ => Returned r |}.

(** A reply with a JSON body. *)
Definition json_reply (code : N) (data : jsval) : FetchResponse :=
  {| resp_status := code;
     resp_json := Returned data;
     resp_text := Thrown (ErrorObj (js "body stream already read")) |}.

(** A reply with a text body that is not JSON. *)
Definition text_reply (code : N) (text : jsstring) : FetchResponse :=
  {| resp_status := code;
     resp_json := Thrown (ErrorObj (js "Unexpected token < in JSON at position 0"));
     resp_text := Returned text |}.

(** AnkiConnect's answers: twelve cards reviewed; none reviewed; an error. *)
Definition twelve_reviewed : jsval :=
  JObj [ (js "result", JNum 12%float); (js "error", JNull) ].


Definition unsupported_action : jsval :=
  JObj [ (js "result", JNull); (js "error", JStr (js "unsupported action")) ].

(** A review list with one book on the currently-reading shelf ... *)
Definition reading_dune : jsstring :=
  js "<GoodreadsResponse><reviews><review><shelves>"
  ++ Goodreads.shelf_open ++ js " exclusive=" ++ Goodreads.quotation_mark
  ++ js "true" ++ Goodreads.quotation_mark ++ js "/></shelves>"
  ++ js "<book><title><![CDATA[Dune]]></title><num_pages>412</num_pages></book>"
  ++ js "</review></reviews></GoodreadsResponse>".

(** ... and one with nothing on that shelf. *)
Definition nothing_on_shelf : jsstring :=
  js "<GoodreadsResponse><reviews></reviews></GoodreadsResponse>".

(** The worlds of the examples.  For the review-count route: nothing listens
    on the port; a proxy answers 502; AnkiConnect refuses the action; twelve
    cards were reviewed; none was; the reply is [null]. *)
Definition anki_offline : World := offline nothing_set.
Definition anki_bad_gateway : World :=
  answering configured (text_reply 502 (js "Bad Gateway")).
Definition anki_refused : World :=
  answering configured (json_reply 200 unsupported_action).
Definition anki_twelve : World :=
  answering configured (json_reply 200 twelve_reviewed).
Definition anki_null : World :=
  answering configured (json_reply 200 JNull).

(** For the reading-progress route: the credentials are not set; Goodreads
    cannot be reached; it answers 401; a book is on the shelf; none is. *)
Definition goodreads_not_configured : World :=
  answering nothing_set (text_reply 200 reading_dune).
Definition goodreads_no_user : World :=
  answering
    {| ANKI_CONNECT_HOST := None;
       GOODREADS_KEY := Some (js "your_dev_key");
       GOODREADS_SECRET := Some (js "your_dev_secret");
       GOODREADS_USER_ID := Some [] |}
    (text_reply 200 reading_dune).
Definition goodreads_offline : World := offline configured.
Definition goodreads_unauthorized : World :=
  answering configured (text_reply 401 (js "Invalid API key.")).
Definition goodreads_reading : World :=
  answering configured (text_reply 200 reading_dune).
Definition goodreads_idle : World :=
  answering configured (text_reply 200 nothing_on_shelf).

(** AnkiConnect answering with a count beyond the range of a double: the
    numeral [1e999] is parsed as [Infinity]. *)
Definition overflowing : jsval :=
  JObj [ (js "result", JNum PrimFloat.infinity); (js "error", JNull) ].

Definition anki_overflow : World :=
  answering configured (json_reply 200 overflowing).

(** [ANKI_CONNECT_HOST] set to the empty string. *)
Definition anki_empty_host : World :=
  answering
    {| ANKI_CONNECT_HOST := Some [];
       GOODREADS_KEY := None;
       GOODREADS_SECRET := None;
       GOODREADS_USER_ID := None |}
    (json_reply 200 twelve_reviewed).

(** A review whose page count is empty. *)
Definition reading_unpaged : jsstring :=
  js "<reviews><review>" ++ Goodreads.shelf_open
  ++ js "/><title><![CDATA[Dune]]></title><num_pages></num_pages></review></reviews>".

Definition goodreads_unpaged : World :=
  answering configured (text_reply 200 reading_unpaged).

(** AnkiConnect answering with a bare count, as its protocol versions below 5
    do, and with an error that is not a string. *)
Definition anki_bare_count : World :=
  answering configured (json_reply 200 (JNum 5%float)).

(** A review list as Goodreads lays it out: the book, with its title and page
    count, stands before the shelves of the review. *)
Definition book_before_shelves : jsstring :=
  js "<GoodreadsResponse><reviews><review>"
  ++ js "<book><title><![CDATA[Dune]]></title><num_pages>412</num_pages></book>"
  ++ js "<shelves>" ++ Goodreads.shelf_open ++ js " exclusive="
  ++ Goodreads.quotation_mark ++ js "true" ++ Goodreads.quotation_mark
  ++ js "/></shelves>"
  ++ js "</review></reviews></GoodreadsResponse>".

Definition goodreads_book_before_shelves : World :=
  answering configured (text_reply 200 book_before_shelves).

(** Two reviews on the shelf. *)
Definition reading_two : jsstring :=
  js "<reviews><review>" ++ Goodreads.shelf_open
  ++ js "/><title><![CDATA[Dune]]></title></review>"
  ++ js "<review>" ++ Goodreads.shelf_open
  ++ js "/><title><![CDATA[Emma]]></title></review></reviews>".

End Sample.

(** ** The review-count route as the architecture document has it

    [architecture.md], section 5.3: the host is fixed, the reply is not
    checked, and a failure is answered with status 503. *)

Module Design.

Local Open Scope async_scope.

(** [const payload = { action: "getNumCardsReviewedToday", version: 6 }] *)
Definition payload_sent : jsval :=
  JObj [ (js "action", JStr (js "getNumCardsReviewedToday"));
         (js "version", JNum 6%float) ].

(** [export const GET: APIRoute = async () => { ... }]; a [Response] built
    without a status has status 200. *)
Definition GET : Async Response :=
  try
    (res <- fetch {| url := js "http://localhost:8765";
                     method := js "POST";
                     req_headers := [ (js "Content-Type", js "application/json") ];
                     req_body := Some (JSON_stringify payload_sent) |} ;;
     data <- await (resp_json res) ;;
     data_result <- get_prop data (js "result") ;;
     ret {| body := JSON_stringify (JObj [ (js "today", data_result) ]);
            status := 200;
            headers := [ (js "Content-Type", js "application/json");
                         (js "Cache-Control",
                          js "s-maxage=300, stale-while-revalidate=60") ] |})
  catch _error =>
    ret {| body := JSON_stringify (JObj [ (js "today", JNum 0%float);
                                          (js "error", JBool true) ]);
           status := 503;
           headers := [] |}.

End Design.

(** ** Occurrences of a literal in a text *)

Definition occurs_in (p s : jsstring) : Prop :=
  exists before rest, s = before ++ p ++ rest.

Fixpoint occursb (p s : jsstring) : bool :=
  match after_literal p s with
  | Some _ => true
  | None =>
      match s with
      | [] => false
      | _ :: s' => occursb p s'
      end
  end.

(** ** What the reader of a body finds

    [JSON.stringify] writes a number that is not finite as [null] and negative
    zero as [0], leaves out the properties of an object whose value is
    [undefined], and writes [undefined] in an array as [null]; everything else
    is read back as it was. *)

Definition json_number (n : number) : jsval :=
  if PrimFloat.is_nan n || PrimFloat.is_infinity n then JNull
  else if PrimFloat.eqb n 0%float then JNum 0%float
  else JNum n.

Fixpoint mentioned (k : jsstring) (seen : list jsstring) : bool :=
  match seen with
  | [] => false
  | k' :: rest => jsstring_eqb k k' || mentioned k rest
  end.

(** The members of an object as they are written: each key once, with the
    value that a lookup from the front finds, unless that value is
    [undefined]. *)
Fixpoint members (write : jsval -> jsval) (seen : list jsstring)
    (props : list (jsstring * jsval)) : list (jsstring * jsval) :=
  match props with
  | [] => []
  | (k, v) :: rest =>
      if mentioned k seen then members write seen rest
      else
        match v with
        | JUndefined => members write (k :: seen) rest
        | _ => (k, write v) :: members write (k :: seen) rest
        end
  end.

Definition element (write : jsval -> jsval) (v : jsval) : jsval :=
  match v with
  | JUndefined => JNull
  | _ => write v
  end.

(** [JSON.parse(JSON.stringify(v))]; for [undefined], which has no JSON text,
    [undefined]. *)
Fixpoint json_of (v : jsval) : jsval :=
  match v with
  | JUndefined => JUndefined
  | JNull => JNull
  | JBool b => JBool b
  | JNum n => json_number n
  | JStr s => JStr s
  | JArr items => JArr (map (element json_of) items)
  | JObj props => JObj (members json_of [] props)
  end.

(** The JSON value in the body of a response, and one property of it. *)
Definition body_json (r : Response) : jsval :=
  match body r with JSON_stringify v => json_of v end.

Definition body_field (r : Response) (k : string) : jsval :=
  property (body_json r) (js k).

(** The values that are read back as they were written: no [undefined], no
    number that is not finite, no negative zero, no key twice in an object. *)
Definition plain_number (n : number) : bool :=
  negb (PrimFloat.is_nan n || PrimFloat.is_infinity n)
  && (negb (PrimFloat.eqb n 0%float) || PrimFloat.Leibniz.eqb n 0%float).

Fixpoint plain_members (check : jsval -> bool) (seen : list jsstring)
    (props : list (jsstring * jsval)) : bool :=
  match props with
  | [] => true
  | (k, v) :: rest =>
      negb (mentioned k seen) && check v && plain_members check (k :: seen) rest
  end.

Fixpoint plain (v : jsval) : bool :=
  match v with
  | JUndefined => false
  | JNull | JBool _ | JStr _ => true
  | JNum n => plain_number n
  | JArr items => forallb plain items
  | JObj props => plain_members plain [] props
  end.

(** Induction over values, through the items of arrays and the members of
    objects. *)
Section jsval_induction.

Variable P : jsval -> Prop.
Hypothesis P_undefined : P JUndefined.
Hypothesis P_null : P JNull.
Hypothesis P_bool : forall b, P (JBool b).
Hypothesis P_num : forall n, P (JNum n).
Hypothesis P_str : forall s, P (JStr s).
Hypothesis P_arr : forall items, Forall P items -> P (JArr items).
Hypothesis P_obj : forall props, Forall (fun kv => P (snd kv)) props -> P (JObj props).

Fixpoint jsval_nested_ind (v : jsval) : P v :=
  match v with
  | JUndefined => P_undefined
  | JNull => P_null
  | JBool b => P_bool b
  | JNum n => P_num n
  | JStr s => P_str s
  | JArr items =>
      P_arr items
        ((fix each (l : list jsval) : Forall P l :=
            match l with
            | [] => Forall_nil P
            | x :: l' => Forall_cons x (jsval_nested_ind x) (each l')
            end) items)
  | JObj props =>
      P_obj props
        ((fix each (l : list (jsstring * jsval))
            : Forall (fun kv => P (snd kv)) l :=
            match l with
            | [] => Forall_nil _
            | (k, x) :: l' =>
                Forall_cons (k, x) (jsval_nested_ind x) (each l')
            end) props)
  end.

End jsval_induction.

(** * Properties *)

(** ** Serialization *)

Lemma jsstring_eqb_eq (s t : jsstring) : jsstring_eqb s t = true <-> s = t.
Proof.
  revert t. induction s as [ | c s IH]; intros [ | d t]; cbn; split;
    try discriminate; try reflexivity.
  - intros H. apply andb_true_iff in H as [Hc Hs].
    apply N.eqb_eq in Hc. apply IH in Hs. now subst.
  - intros H. injection H as -> ->. rewrite N.eqb_refl. now apply IH.
Qed.

Lemma mentioned_eq (k k' : jsstring) (seen : list jsstring) :
  jsstring_eqb k k' = true -> mentioned k' seen = mentioned k seen.
Proof.
  intros H. apply jsstring_eqb_eq in H. now subst.
Qed.

(** A number is written as itself, as [0] or as [null]. *)
Lemma json_number_cases (n : number) :
  (json_number n = JNull /\ (PrimFloat.is_nan n || PrimFloat.is_infinity n) = true)
  \/ (json_number n = JNum 0%float /\ PrimFloat.eqb n 0%float = true)
  \/ (json_number n = JNum n /\ PrimFloat.eqb n 0%float = false /\
      PrimFloat.is_nan n = false /\ PrimFloat.is_infinity n = false).
Proof.
  unfold json_number.
  destruct (PrimFloat.is_nan n) eqn:Hnan; [ left; now split | ].
  destruct (PrimFloat.is_infinity n) eqn:Hinf; [ left; now split | ].
  cbn [orb].
  destruct (PrimFloat.eqb n 0%float) eqn:Hz;
    [ right; left; now split | right; right; repeat split; assumption ].
Qed.

(** Reading a property off the written members: the property that a lookup
    from the front finds, written. *)
Lemma own_property_members (write : jsval -> jsval) (k : jsstring)
    (props : list (jsstring * jsval)) (seen : list jsstring) :
  own_property k (members write seen props) =
    if mentioned k seen then JUndefined
    else match own_property k props with
         | JUndefined => JUndefined
         | v => write v
         end.
Proof.
  revert seen. induction props as [ | [k' v] props IH]; intros seen.
  - cbn. now destruct (mentioned k seen).
  - cbn [members own_property].
    destruct (jsstring_eqb k k') eqn:Hk.
    + rewrite (mentioned_eq k k' seen Hk).
      destruct (mentioned k seen) eqn:Hseen.
      * rewrite IH, Hseen. reflexivity.
      * destruct v; cbn [own_property]; rewrite ?Hk; try reflexivity.
        rewrite IH. cbn [mentioned].
        apply jsstring_eqb_eq in Hk. subst k'.
        assert (Hrefl : jsstring_eqb k k = true) by now apply jsstring_eqb_eq.
        now rewrite Hrefl.
    + destruct (mentioned k' seen) eqn:Hseen'.
      * apply IH.
      * assert (Hstep : forall tail,
                   own_property k tail =
                     (if mentioned k (k' :: seen) then JUndefined
                      else match own_property k props with
                           | JUndefined => JUndefined
                           | v0 => write v0
                           end) ->
                   own_property k tail =
                     (if mentioned k seen then JUndefined
                      else match own_property k props with
                           | JUndefined => JUndefined
                           | v0 => write v0
                           end)).
        { intros tail ->. cbn [mentioned]. now rewrite Hk. }
        destruct v; cbn [own_property]; rewrite ?Hk; apply Hstep, IH.
Qed.

Lemma property_json_of (v : jsval) (k : jsstring) :
  property (json_of v) k = json_of (property v k).
Proof.
  destruct v; cbn [json_of property]; try reflexivity.
  - destruct (json_number_cases n) as [[-> _] | [[-> _] | [-> _]]]; reflexivity.
  - rewrite own_property_members. cbn [mentioned].
    now destruct (own_property k props).
Qed.

(** What the reader finds under a key is what the route put there, written. *)
Lemma body_field_written (r : Response) (k : string) :
  body_field r k = json_of (field r k).
Proof.
  unfold body_field, body_json, field, payload.
  destruct (body r) as [v]. apply property_json_of.
Qed.

Lemma plain_number_written (n : number) :
  plain_number n = true -> json_number n = JNum n.
Proof.
  unfold plain_number, json_number. intros H.
  apply andb_true_iff in H as [Hfinite Hzero].
  apply negb_true_iff in Hfinite. rewrite Hfinite.
  destruct (PrimFloat.eqb n 0%float); [ | reflexivity ].
  cbn [negb orb] in Hzero.
  apply FloatAxioms.Leibniz.eqb_spec in Hzero. now subst n.
Qed.

Lemma plain_members_written (seen : list jsstring)
    (props : list (jsstring * jsval)) :
  Forall (fun kv => plain (snd kv) = true -> json_of (snd kv) = snd kv) props ->
  plain_members plain seen props = true ->
  members json_of seen props = props.
Proof.
  intros Heach. revert seen.
  induction Heach as [ | [k v] props Hv _ IH]; intros seen Hplain;
    [ reflexivity | ].
  cbn [plain_members] in Hplain. cbn [members].
  apply andb_true_iff in Hplain as [Hplain Hrest].
  apply andb_true_iff in Hplain as [Hseen Hplainv].
  apply negb_true_iff in Hseen. rewrite Hseen.
  cbn [snd] in Hv. specialize (Hv Hplainv).
  rewrite (IH _ Hrest).
  destruct v; try (rewrite Hv; reflexivity). discriminate Hplainv.
Qed.

(** A plain value is read back as it was written. *)
Lemma json_of_plain (v : jsval) : plain v = true -> json_of v = v.
Proof.
  induction v as [ | | b | n | s | items IH | props IH] using jsval_nested_ind;
    intros Hplain; try reflexivity.
  - now apply plain_number_written.
  - cbn [json_of plain] in *. f_equal.
    induction IH as [ | x items Hx _ IHitems]; [ reflexivity | ].
    cbn [forallb] in Hplain. apply andb_true_iff in Hplain as [Hpx Hrest].
    cbn [map]. rewrite (IHitems Hrest). f_equal.
    unfold element. rewrite (Hx Hpx). destruct x; try reflexivity.
    discriminate Hpx.
  - cbn [json_of plain] in *. f_equal.
    now apply plain_members_written.
Qed.

(** So for a plain value the reader finds what the route put there. *)
Lemma plain_field_in_body (r : Response) (k : string) :
  plain (field r k) = true -> body_field r k = field r k.
Proof.
  intros Hplain. rewrite body_field_written. now apply json_of_plain.
Qed.

(** A truthy value is written as a truthy value, unless it is an infinite
    number, which is written as [null]. *)
Lemma truthy_written (v : jsval) :
  truthy v = true ->
  truthy (json_of v) = true \/
  exists n, v = JNum n /\ PrimFloat.is_infinity n = true /\ json_of v = JNull.
Proof.
  destruct v; cbn [truthy json_of]; intros H; try discriminate H;
    try (left; exact H); try (left; reflexivity).
  apply andb_true_iff in H as [Hzero Hnan].
  apply negb_true_iff in Hzero. apply negb_true_iff in Hnan.
  unfold json_number. rewrite Hnan, Hzero. cbn [orb].
  destruct (PrimFloat.is_infinity n) eqn:Hinf.
  - right. exists n. split; [ reflexivity | ]. split; [ exact Hinf | reflexivity ].
  - left. cbn [truthy]. now rewrite Hzero, Hnan.
Qed.

(** ** The review-count route, run *)

Section AnkiRuns.

Variable W : World.

(** A successful call: one request, the reply reshaped, nothing logged. *)
Lemma anki_run_success (data : jsval) :
  Anki.call_succeeds W data ->
  invoke Anki.GET W = (Returned (Anki.reviewed data), [Fetch (Anki.rpc_request (Anki.configured_host W))]).
Proof.
  intros (r & Hanswer & Hok & Hjson & Hdata & Herror).
  unfold Anki.answer, Anki.configured_host in Hanswer.
  unfold invoke, Anki.GET, bind, try_catch, ask, fetch, await, get_prop, throw, ret.
  cbn [requests app].
  rewrite Hanswer, Hok. cbn [negb].
  rewrite Hjson, Hdata, Herror.
  reflexivity.
Qed.

(** A failed call: one request, one console line, the placeholder payload. *)
Lemma anki_run_failure :
  Anki.call_fails W ->
  exists error,
    invoke Anki.GET W =
      (Returned (Anki.unavailable error),
       [Fetch (Anki.rpc_request (Anki.configured_host W));
        ConsoleError (js "AnkiConnect error:") error]).
Proof.
  intros Hfails.
  unfold invoke, Anki.GET, bind, try_catch, ask, fetch, await, get_prop, throw,
    ret, console_error.
  cbn [requests app].
  destruct Hfails as [e Ha | r Ha Hok | r e Ha Hok Hj | r d Ha Hok Hj Hn
                     | r d Ha Hok Hj Hn He];
    unfold Anki.answer, Anki.configured_host in Ha; rewrite Ha; try rewrite Hok; cbn [negb];
    try rewrite Hj; try rewrite Hn; try rewrite He;
    eexists; reflexivity.
Qed.

(** A call fails or succeeds. *)
Lemma anki_call_settles :
  Anki.call_fails W \/ exists data, Anki.call_succeeds W data.
Proof.
  destruct (Anki.answer W) as [r | e] eqn:Ha.
  - destruct (ok r) eqn:Hok.
    + destruct (resp_json r) as [data | e] eqn:Hj.
      * destruct (nullish data) eqn:Hn.
        -- left. eapply Anki.reply_nullish; eauto.
        -- destruct (truthy (property data (js "error"))) eqn:He.
           ++ left. eapply Anki.reply_error; eauto.
           ++ right. exists data, r. auto.
      * left. eapply Anki.body_unreadable; eauto.
    + left. eapply Anki.status_not_ok; eauto.
  - left. eapply Anki.network_error; eauto.
Qed.

End AnkiRuns.

(** ** The reading-progress route, run *)

Section GoodreadsRuns.

Variable W : World.

Ltac run_goodreads :=
  unfold invoke, Goodreads.GET, bind, try_catch, ask, fetch, await, throw, ret,
    console_error;
  cbn [requests app].

(** Without the credentials the route returns at once. *)
Lemma goodreads_run_not_configured :
  Goodreads.credentials_missing W = true ->
  invoke Goodreads.GET W =
    (Returned (Goodreads.respond Goodreads.not_configured Goodreads.long_cache), []).
Proof.
  intros Hmissing. unfold Goodreads.credentials_missing in Hmissing.
  run_goodreads. rewrite Hmissing. reflexivity.
Qed.

(** A lookup that fails with the credentials present ends in the [catch] block:
    at most the one request, one console line, the payload without a book. *)
Lemma goodreads_run_caught :
  Goodreads.lookup_fails W ->
  Goodreads.credentials_missing W = false ->
  exists error sent,
    invoke Goodreads.GET W =
      (Returned (Goodreads.respond (Goodreads.lookup_failed error) Goodreads.short_cache),
       sent ++ [ConsoleError (js "Goodreads API error:") error])
    /\ (sent = [] \/ exists h, sent = [Fetch (Goodreads.signed_request W h)]).
Proof.
  intros Hfails Hpresent.
  destruct Hfails as [Hm | e _ Hs | h e _ Hs Ha | h r _ Hs Ha Hok
                     | h r e _ Hs Ha Hok Ht];
    [ congruence | | | | ];
    unfold Goodreads.credentials_missing in Hpresent;
    unfold Goodreads.signature in Hs; try unfold Goodreads.answer in Ha;
    run_goodreads; rewrite Hpresent, Hs; cbn [requests app].
  - exists e, []. split; [ reflexivity | now left ].
  - rewrite Ha. exists e, [Fetch (Goodreads.signed_request W h)].
    split; [ reflexivity | right; now exists h ].
  - rewrite Ha, Hok. cbn [negb].
    eexists _, [Fetch (Goodreads.signed_request W h)].
    split; [ reflexivity | right; now exists h ].
  - rewrite Ha, Hok, Ht. cbn [negb].
    exists e, [Fetch (Goodreads.signed_request W h)].
    split; [ reflexivity | right; now exists h ].
Qed.

(** Console lines are not requests. *)
Lemma requests_console_error (sent : trace) (label : jsstring) (error : thrown) :
  requests (sent ++ [ConsoleError label error]) = requests sent.
Proof.
  induction sent as [ | [q | l e] sent IH]; cbn [app requests];
    [ reflexivity | f_equal; exact IH | exact IH ].
Qed.

(** Every failed lookup, with or without the credentials: the payload has the
    error flag, a message and no book; at most one request was sent; the cache
    header is the long one only when the credentials are missing. *)
Lemma goodreads_run_failure :
  Goodreads.lookup_fails W ->
  exists message sent,
    invoke Goodreads.GET W =
      (Returned
         (Goodreads.respond
            (JObj [ (js "error", JBool true);
                    (js "message", JStr message);
                    (js "book", JNull) ])
            (if Goodreads.credentials_missing W
             then Goodreads.long_cache else Goodreads.short_cache)),
       sent)
    /\ List.length (requests sent) <= 1.
Proof.
  intros Hfails.
  destruct (Goodreads.credentials_missing W) eqn:Hm.
  - eexists _, []. rewrite (goodreads_run_not_configured Hm).
    split; [ reflexivity | cbn; lia ].
  - destruct (goodreads_run_caught Hfails Hm) as (error & sent & Hrun & Hsent).
    eexists _, _. rewrite Hrun. split; [ reflexivity | ].
    rewrite requests_console_error.
    destruct Hsent as [-> | [h ->]]; cbn; lia.
Qed.

(** A lookup that succeeds: one request, nothing logged, the list reshaped. *)
Lemma goodreads_run_success (xmlText : jsstring) :
  Goodreads.lookup_succeeds W xmlText ->
  exists h,
    invoke Goodreads.GET W =
      (Returned (Goodreads.respond (Goodreads.reshaped (host W) xmlText) Goodreads.long_cache),
       [Fetch (Goodreads.signed_request W h)]).
Proof.
  intros (Hpresent & h & r & Hs & Ha & Hok & Ht).
  unfold Goodreads.credentials_missing in Hpresent.
  unfold Goodreads.signature in Hs. unfold Goodreads.answer in Ha.
  exists h. run_goodreads. rewrite Hpresent, Hs. cbn [requests app].
  rewrite Ha, Hok, Ht. cbn [negb].
  unfold Goodreads.reshaped.
  destruct (Goodreads.currently_reading xmlText) as [[review whole] | ];
    reflexivity.
Qed.

(** A lookup fails or succeeds. *)
Lemma goodreads_lookup_settles :
  Goodreads.lookup_fails W \/ exists xmlText, Goodreads.lookup_succeeds W xmlText.
Proof.
  destruct (Goodreads.credentials_missing W) eqn:Hm.
  { left. now apply Goodreads.credentials_not_configured. }
  destruct (Goodreads.signature W) as [h | e] eqn:Hs.
  2:{ left. eapply Goodreads.signing_fails; eauto. }
  destruct (Goodreads.answer W h) as [r | e] eqn:Ha.
  2:{ left. eapply Goodreads.network_error; eauto. }
  destruct (ok r) eqn:Hok.
  2:{ left. eapply Goodreads.status_not_ok; eauto. }
  destruct (resp_text r) as [xmlText | e] eqn:Ht.
  2:{ left. eapply Goodreads.body_unreadable; eauto. }
  right. exists xmlText. split; [ assumption | ]. exists h, r. auto.
Qed.

End GoodreadsRuns.

(** ** The review-count route *)

(** C1.  Whenever the call to the AnkiConnect endpoint fails (a network error,
    a status that is not ok, an error in the reply, which is what [if
    (data.error)] tests: a truthy [error] property; and also a body that is not
    JSON or is [null]), the route returns an HTTP 200 response whose JSON body
    has [today = 0] and [error = true]: a soft failure, not an HTTP error
    status. *)
Theorem anki_soft_failure (W : World) :
  Anki.call_fails W ->
  exists r,
    settles Anki.GET W = Returned r /\
    status r = 200%Z /\
    field r "today" = JNum 0%float /\
    field r "error" = JBool true.
Proof.
  intros Hfails.
  destruct (anki_run_failure W Hfails) as [error Hrun].
  exists (Anki.unavailable error).
  unfold settles. rewrite Hrun.
  repeat split.
Qed.

(** The three failures the claim names, each at a concrete world (nothing
    listens on the port; the endpoint answers 502; AnkiConnect answers with an
    error), and a reply that is [null]. *)
Lemma anki_soft_failure_witness :
  (Anki.call_fails Sample.anki_offline /\
   exists r, settles Anki.GET Sample.anki_offline = Returned r /\
             status r = 200%Z /\
             field r "today" = JNum 0%float /\ field r "error" = JBool true)
  /\
  (Anki.call_fails Sample.anki_bad_gateway /\
   exists r, settles Anki.GET Sample.anki_bad_gateway = Returned r /\
             status r = 200%Z /\
             field r "today" = JNum 0%float /\ field r "error" = JBool true)
  /\
  (Anki.call_fails Sample.anki_refused /\
   exists r, settles Anki.GET Sample.anki_refused = Returned r /\
             status r = 200%Z /\
             field r "today" = JNum 0%float /\ field r "error" = JBool true)
  /\
  (Anki.call_fails Sample.anki_null /\
   exists r, settles Anki.GET Sample.anki_null = Returned r /\
             status r = 200%Z /\
             field r "today" = JNum 0%float /\ field r "error" = JBool true).
Proof.
  assert (H1 : Anki.call_fails Sample.anki_offline).
  { eapply Anki.network_error. reflexivity. }
  assert (H2 : Anki.call_fails Sample.anki_bad_gateway).
  { eapply Anki.status_not_ok; reflexivity. }
  assert (H3 : Anki.call_fails Sample.anki_refused).
  { eapply Anki.reply_error; reflexivity. }
  assert (H4 : Anki.call_fails Sample.anki_null).
  { eapply Anki.reply_nullish; reflexivity. }
  exact (conj (conj H1 (anki_soft_failure _ H1))
          (conj (conj H2 (anki_soft_failure _ H2))
                (conj (conj H3 (anki_soft_failure _ H3))
                      (conj H4 (anki_soft_failure _ H4))))).
Defined.




(** C7.  In every invocation the route sends exactly one request, to the
    configured host ([ANKI_CONNECT_HOST] when it is set and not empty,
    [http://localhost:8765] otherwise): a POST with
    [Content-Type: application/json] whose body is the JSON text of
    [{action: "getNumCardsReviewedToday", version: 6}]. *)
Theorem anki_outbound_request (W : World) :
  requests (effects Anki.GET W) =
    [ {| url := match ANKI_CONNECT_HOST (env W) with
                | Some (c :: configured) => c :: configured
                | Some [] | None => js "http://localhost:8765"
                end;
         method := js "POST";
         req_headers := [ (js "Content-Type", js "application/json") ];
         req_body :=
           Some (JSON_stringify
                   (JObj [ (js "action", JStr (js "getNumCardsReviewedToday"));
                           (js "version", JNum 6%float) ])) |} ].
Proof.
  unfold effects.
  destruct (anki_call_settles W) as [Hfails | [data Hsucceeds]].
  - destruct (anki_run_failure W Hfails) as [error ->].
    cbn [snd requests]. unfold Anki.configured_host, env_or.
    destruct (ANKI_CONNECT_HOST (env W)) as [[ | c configured] | ]; reflexivity.
  - rewrite (anki_run_success W data Hsucceeds).
    cbn [snd requests]. unfold Anki.configured_host, env_or.
    destruct (ANKI_CONNECT_HOST (env W)) as [[ | c configured] | ]; reflexivity.
Qed.

(** The request goes to the host that is configured, [http://127.0.0.1:8765]
    in the sample environment, and to the default when the variable is not set
    or is empty. *)
Lemma anki_outbound_request_witness :
  ANKI_CONNECT_HOST (env Sample.anki_twelve) = Some (js "http://127.0.0.1:8765") /\
  map url (requests (effects Anki.GET Sample.anki_twelve))
  = [ js "http://127.0.0.1:8765" ] /\
  ANKI_CONNECT_HOST (env Sample.anki_offline) = None /\
  map url (requests (effects Anki.GET Sample.anki_offline))
  = [ js "http://localhost:8765" ] /\
  ANKI_CONNECT_HOST (env Sample.anki_empty_host) = Some [] /\
  map url (requests (effects Anki.GET Sample.anki_empty_host))
  = [ js "http://localhost:8765" ].
Proof.
  split; [ reflexivity | ].
  split; [ exact (f_equal (map url) (anki_outbound_request Sample.anki_twelve)) | ].
  split; [ reflexivity | ].
  split; [ exact (f_equal (map url) (anki_outbound_request Sample.anki_offline)) | ].
  split; [ reflexivity | ].
  exact (f_equal (map url) (anki_outbound_request Sample.anki_empty_host)).
Defined.

(** ** The reading-progress route *)

(** C10.  Whenever one of the three credentials is missing (not set, or
    empty), the route returns the payload [{error: true, book: null}] with
    status 200 and sends no request at all. *)
Theorem goodreads_missing_credentials (W : World) :
  env_missing (GOODREADS_KEY (env W)) = true \/
  env_missing (GOODREADS_SECRET (env W)) = true \/
  env_missing (GOODREADS_USER_ID (env W)) = true ->
  exists r,
    settles Goodreads.GET W = Returned r /\
    status r = 200%Z /\
    field r "error" = JBool true /\
    field r "book" = JNull /\
    requests (effects Goodreads.GET W) = [].
Proof.
  intros Hmissing.
  assert (Hm : Goodreads.credentials_missing W = true).
  { unfold Goodreads.credentials_missing.
    destruct Hmissing as [-> | [-> | ->]];
      rewrite ?orb_true_r; reflexivity. }
  exists (Goodreads.respond Goodreads.not_configured Goodreads.long_cache).
  unfold settles, effects. rewrite (goodreads_run_not_configured W Hm).
  repeat split.
Qed.

(** No variable set; and a key and a secret with an empty user id. *)
Lemma goodreads_missing_credentials_witness :
  (exists r,
     settles Goodreads.GET Sample.goodreads_not_configured = Returned r /\
     status r = 200%Z /\
     field r "error" = JBool true /\
     field r "book" = JNull /\
     requests (effects Goodreads.GET Sample.goodreads_not_configured) = [])
  /\
  (exists r,
     settles Goodreads.GET Sample.goodreads_no_user = Returned r /\
     status r = 200%Z /\
     field r "error" = JBool true /\
     field r "book" = JNull /\
     requests (effects Goodreads.GET Sample.goodreads_no_user) = []).
Proof.
  split.
  - apply goodreads_missing_credentials. left. reflexivity.
  - apply goodreads_missing_credentials. right. right. reflexivity.
Defined.

(** *** The expressions match substrings *)

Lemma after_literal_sound (p s rest : jsstring) :
  after_literal p s = Some rest -> s = p ++ rest.
Proof.
  revert s. induction p as [ | c p IH]; intros s H.
  - cbn in H. now injection H as ->.
  - destruct s as [ | d s]; cbn in H; [ discriminate | ].
    destruct (N.eqb c d) eqn:Hcd; [ | discriminate ].
    apply N.eqb_eq in Hcd. subst d. cbn. f_equal. now apply IH.
Qed.

Lemma after_literal_complete (p rest : jsstring) :
  after_literal p (p ++ rest) = Some rest.
Proof.
  induction p as [ | c p IH]; cbn; [ reflexivity | ].
  now rewrite N.eqb_refl.
Qed.

(** The lazy run stops in front of the closing literal and stays in its class. *)
Lemma lazy_run_sound (class : code_unit -> bool) (close s run : jsstring) :
  lazy_run class close s = Some run ->
  forallb class run = true /\ exists rest, s = run ++ close ++ rest.
Proof.
  revert run. induction s as [ | c s IH]; intros run H; cbn in H.
  - destruct (after_literal close []) as [rest | ] eqn:Hclose; [ | discriminate ].
    injection H as <-. split; [ reflexivity | ].
    exists rest. cbn [app]. now apply after_literal_sound.
  - destruct (after_literal close (c :: s)) as [rest | ] eqn:Hclose.
    + injection H as <-. split; [ reflexivity | ].
      exists rest. cbn [app]. now apply after_literal_sound.
    + destruct (class c) eqn:Hc; [ | discriminate ].
      destruct (lazy_run class close s) as [run' | ] eqn:Hrun; [ | discriminate ].
      cbn in H. injection H as <-.
      destruct (IH run' eq_refl) as (Hclass & rest & ->).
      split; [ cbn; now rewrite Hc | now exists rest ].
Qed.

(** A match is an occurrence of the opening literal, a run in the class, and
    the closing literal. *)
Lemma regex_match_sound (open : jsstring) (class : code_unit -> bool)
    (close s whole run : jsstring) :
  regex_match open class close s = Some (whole, run) ->
  whole = open ++ run ++ close /\
  forallb class run = true /\
  exists before rest, s = before ++ whole ++ rest.
Proof.
  revert whole run.
  assert (Hhere : forall t whole run,
             match after_literal open t with
             | Some rest => lazy_run class close rest
             | None => None
             end = Some run ->
             whole = open ++ run ++ close ->
             forallb class run = true /\ exists rest, t = whole ++ rest).
  { intros t whole run H ->.
    destruct (after_literal open t) as [rest | ] eqn:Hopen; [ | discriminate ].
    apply after_literal_sound in Hopen. subst t.
    destruct (lazy_run_sound _ _ _ _ H) as (Hclass & rest' & ->).
    split; [ assumption | ]. exists rest'. now rewrite <- !app_assoc. }
  induction s as [ | c s IH]; intros whole run H; cbn in H.
  - destruct (match after_literal open [] with
              | Some rest => lazy_run class close rest
              | None => None
              end) as [run' | ] eqn:Hm; [ | discriminate ].
    injection H as <- <-.
    destruct (Hhere [] _ _ Hm eq_refl) as (Hclass & rest & Hrest).
    repeat split; [ assumption | ]. exists [], rest. exact Hrest.
  - destruct (match after_literal open (c :: s) with
              | Some rest => lazy_run class close rest
              | None => None
              end) as [run' | ] eqn:Hm.
    + injection H as <- <-.
      destruct (Hhere (c :: s) _ _ Hm eq_refl) as (Hclass & rest & Hrest).
      repeat split; [ assumption | ]. exists [], rest. exact Hrest.
    + destruct (IH whole run H) as (Hwhole & Hclass & before & rest & ->).
      repeat split; [ assumption | assumption | ].
      exists (c :: before), rest. reflexivity.
Qed.

(** A review list in which the opening of the currently-reading shelf element
    does not occur has no match. *)
Lemma no_shelf_element_no_match (xmlText : jsstring) :
  (forall before rest, xmlText <> before ++ Goodreads.shelf_open ++ rest) ->
  Goodreads.currently_reading xmlText = None.
Proof.
  intros Habsent. unfold Goodreads.currently_reading.
  destruct (regex_match Goodreads.shelf_open any_code_unit (js "</review>") xmlText)
    as [[whole run] | ] eqn:Hm; [ | reflexivity ].
  destruct (regex_match_sound _ _ _ _ _ _ Hm) as (-> & _ & before & rest & Hx).
  exfalso. apply (Habsent before (run ++ js "</review>" ++ rest)).
  rewrite Hx. now rewrite <- !app_assoc.
Qed.

(** With the class of all code units the closing literal is always reached
    when it occurs further on. *)
Lemma lazy_run_complete (close mid rest : jsstring) :
  lazy_run any_code_unit close (mid ++ close ++ rest) <> None.
Proof.
  induction mid as [ | c mid IH].
  - cbn [app]. destruct close as [ | d close]; [ destruct rest; discriminate | ].
    cbn [app lazy_run].
    change (after_literal (d :: close) (d :: close ++ rest))
      with (after_literal (d :: close) ((d :: close) ++ rest)).
    rewrite after_literal_complete. discriminate.
  - cbn [app lazy_run].
    destruct (after_literal close (c :: mid ++ close ++ rest)); [ discriminate | ].
    cbn [any_code_unit].
    destruct (lazy_run any_code_unit close (mid ++ close ++ rest));
      [ discriminate | contradiction ].
Qed.

Lemma regex_match_complete (open close before mid rest : jsstring) :
  regex_match open any_code_unit close (before ++ open ++ mid ++ close ++ rest)
  <> None.
Proof.
  assert (Hhere : forall t,
             t = open ++ mid ++ close ++ rest ->
             match after_literal open t with
             | Some r => lazy_run any_code_unit close r
             | None => None
             end <> None).
  { intros t ->. rewrite after_literal_complete. apply lazy_run_complete. }
  induction before as [ | c before IH].
  - cbn [app]. specialize (Hhere _ eq_refl).
    destruct (open ++ mid ++ close ++ rest) as [ | d t]; cbn [regex_match];
      destruct (match after_literal open _ with
                | Some r => lazy_run any_code_unit close r
                | None => None
                end); [ discriminate | contradiction | discriminate | contradiction ].
  - cbn [app regex_match].
    destruct (match after_literal open (c :: before ++ open ++ mid ++ close ++ rest) with
              | Some r => lazy_run any_code_unit close r
              | None => None
              end); [ discriminate | exact IH ].
Qed.

(** What "no currently-reading entry" is for the route: the opening of the
    shelf element is nowhere followed by the end of a review. *)
Lemma no_match_iff_no_entry (xmlText : jsstring) :
  Goodreads.currently_reading xmlText = None <->
  (forall before mid rest,
     xmlText <> before ++ Goodreads.shelf_open ++ mid ++ js "</review>" ++ rest).
Proof.
  unfold Goodreads.currently_reading. split.
  - intros Hnone before mid rest ->.
    now apply (regex_match_complete Goodreads.shelf_open (js "</review>")
                 before mid rest).
  - intros Habsent.
    destruct (regex_match Goodreads.shelf_open any_code_unit (js "</review>") xmlText)
      as [[whole run] | ] eqn:Hm; [ | reflexivity ].
    destruct (regex_match_sound _ _ _ _ _ _ Hm) as (-> & _ & before & rest & Hx).
    exfalso. apply (Habsent before run rest).
    rewrite Hx. now rewrite <- !app_assoc.
Qed.

(** C2, as the specification states it, fails: when the lookup fails the route
    does not return the fallback record of the book marked current.  With
    Goodreads out of reach, and with the credentials not set, the payload is an
    object with [book = null], which is not the record of [kobo.json], and it
    has no property that names a source. *)
Lemma goodreads_failure_returns_no_record :
  fallback_record kobo_json = Some example_book /\
  (Goodreads.lookup_fails Sample.goodreads_offline /\
   exists r,
     settles Goodreads.GET Sample.goodreads_offline = Returned r /\
     field r "book" = JNull /\
     field r "book" <> Goodreads.Book_value example_book /\
     payload r <> Goodreads.Book_value example_book /\
     field r "source" = JUndefined)
  /\
  (Goodreads.lookup_fails Sample.goodreads_not_configured /\
   exists r,
     settles Goodreads.GET Sample.goodreads_not_configured = Returned r /\
     field r "book" = JNull /\
     field r "book" <> Goodreads.Book_value example_book /\
     payload r <> Goodreads.Book_value example_book /\
     field r "source" = JUndefined).
Proof.
  split; [ reflexivity | ]. split.
  - split.
    + eapply Goodreads.network_error; reflexivity.
    + eexists. split; [ reflexivity | ].
      repeat split; try reflexivity; intros H; vm_compute in H; discriminate H.
  - split.
    + apply Goodreads.credentials_not_configured. reflexivity.
    + eexists. split; [ reflexivity | ].
      repeat split; try reflexivity; intros H; vm_compute in H; discriminate H.
Qed.

(** C2, amended.  Whenever the lookup fails (a credential is missing, the
    request cannot be signed, the network fails, the status is not a success,
    the body cannot be read), the route returns status 200 and exactly the
    payload [{error: true, message, book: null}]: no book record and no name of
    a source; the [error] flag is what tells the caller that Goodreads did not
    answer. *)
Theorem goodreads_failure_payload (W : World) :
  Goodreads.lookup_fails W ->
  exists r message,
    settles Goodreads.GET W = Returned r /\
    status r = 200%Z /\
    payload r = JObj [ (js "error", JBool true);
                       (js "message", JStr message);
                       (js "book", JNull) ] /\
    field r "error" = JBool true /\
    field r "book" = JNull.
Proof.
  intros Hfails.
  destruct (goodreads_run_failure W Hfails) as (message & sent & Hrun & _).
  eexists _, message. unfold settles. rewrite Hrun.
  repeat split.
Qed.

(** Goodreads out of reach, an answer 401, and no credentials. *)
Lemma goodreads_failure_payload_witness :
  (Goodreads.lookup_fails Sample.goodreads_offline /\
   exists r message,
     settles Goodreads.GET Sample.goodreads_offline = Returned r /\
     status r = 200%Z /\
     payload r = JObj [ (js "error", JBool true);
                        (js "message", JStr message);
                        (js "book", JNull) ] /\
     field r "error" = JBool true /\
     field r "book" = JNull)
  /\
  (Goodreads.lookup_fails Sample.goodreads_unauthorized /\
   exists r message,
     settles Goodreads.GET Sample.goodreads_unauthorized = Returned r /\
     status r = 200%Z /\
     payload r = JObj [ (js "error", JBool true);
                        (js "message", JStr message);
                        (js "book", JNull) ] /\
     field r "error" = JBool true /\
     field r "book" = JNull)
  /\
  (Goodreads.lookup_fails Sample.goodreads_not_configured /\
   exists r message,
     settles Goodreads.GET Sample.goodreads_not_configured = Returned r /\
     status r = 200%Z /\
     payload r = JObj [ (js "error", JBool true);
                        (js "message", JStr message);
                        (js "book", JNull) ] /\
     field r "error" = JBool true /\
     field r "book" = JNull).
Proof.
  assert (H1 : Goodreads.lookup_fails Sample.goodreads_offline).
  { eapply Goodreads.network_error; reflexivity. }
  assert (H2 : Goodreads.lookup_fails Sample.goodreads_unauthorized).
  { eapply Goodreads.status_not_ok; reflexivity. }
  assert (H3 : Goodreads.lookup_fails Sample.goodreads_not_configured).
  { apply Goodreads.credentials_not_configured. reflexivity. }
  exact (conj (conj H1 (goodreads_failure_payload _ H1))
          (conj (conj H2 (goodreads_failure_payload _ H2))
                (conj H3 (goodreads_failure_payload _ H3)))).
Defined.

(** C3.  Whenever the lookup succeeds and the review list has no match of the
    currently-reading expression (by [no_match_iff_no_entry]: the opening of a
    currently-reading shelf element is nowhere followed by the end of a
    review; so in particular when no such element occurs at all,
    [no_shelf_element_no_match]), the route returns the "no active book"
    payload, [error = false] and [book = null]; every failed lookup has
    [error = true], so the two are distinct. *)
Theorem goodreads_no_active_book (W : World) (xmlText : jsstring) :
  Goodreads.lookup_succeeds W xmlText ->
  Goodreads.currently_reading xmlText = None ->
  exists r,
    settles Goodreads.GET W = Returned r /\
    status r = 200%Z /\
    field r "error" = JBool false /\
    field r "book" = JNull /\
    (forall W' r',
       Goodreads.lookup_fails W' -> settles Goodreads.GET W' = Returned r' ->
       field r' "error" = JBool true /\ payload r' <> payload r).
Proof.
  intros Hsucceeds Hnone.
  destruct (goodreads_run_success W xmlText Hsucceeds) as [h Hrun].
  unfold Goodreads.reshaped in Hrun. rewrite Hnone in Hrun.
  eexists. unfold settles. rewrite Hrun.
  split; [ reflexivity | ].
  split; [ reflexivity | ].
  split; [ reflexivity | ].
  split; [ reflexivity | ].
  intros W' r' Hfails Hr'.
  destruct (goodreads_run_failure W' Hfails) as (message & sent & Hrun' & _).
  rewrite Hrun' in Hr'. cbn [fst] in Hr'. injection Hr' as <-.
  split; [ reflexivity | ].
  intros Heq. apply (f_equal (fun v => property v (js "error"))) in Heq.
  vm_compute in Heq. discriminate Heq.
Qed.

(** A review list with no review in it. *)
Lemma goodreads_no_active_book_witness :
  Goodreads.lookup_succeeds Sample.goodreads_idle Sample.nothing_on_shelf /\
  Goodreads.currently_reading Sample.nothing_on_shelf = None /\
  exists r,
    settles Goodreads.GET Sample.goodreads_idle = Returned r /\
    status r = 200%Z /\
    field r "error" = JBool false /\
    field r "book" = JNull.
Proof.
  assert (Hs : Goodreads.lookup_succeeds Sample.goodreads_idle Sample.nothing_on_shelf).
  { split; [ reflexivity | ]. eexists _, _. repeat split; reflexivity. }
  assert (Hn : Goodreads.currently_reading Sample.nothing_on_shelf = None).
  { reflexivity. }
  split; [ exact Hs | ]. split; [ exact Hn | ].
  destruct (goodreads_no_active_book _ _ Hs Hn) as (r & Hr & Hst & He & Hb & _).
  exists r. repeat split; assumption.
Defined.

(** C4.  Whenever the route returns a book, the book's [progress] is 0,
    whatever the review list says. *)
Theorem goodreads_progress_is_zero (W : World) (r : Response) :
  settles Goodreads.GET W = Returned r ->
  field r "book" <> JNull ->
  property (field r "book") (js "progress") = JNum 0%float.
Proof.
  intros Hr Hbook.
  destruct (goodreads_lookup_settles W) as [Hfails | [xmlText Hsucceeds]].
  - destruct (goodreads_run_failure W Hfails) as (message & sent & Hrun & _).
    unfold settles in Hr. rewrite Hrun in Hr. cbn [fst] in Hr.
    injection Hr as <-. exfalso. apply Hbook. reflexivity.
  - destruct (goodreads_run_success W xmlText Hsucceeds) as [h Hrun].
    unfold settles in Hr. rewrite Hrun in Hr. cbn [fst] in Hr.
    injection Hr as <-. unfold Goodreads.reshaped in *.
    destruct (Goodreads.currently_reading xmlText) as [[review whole] | ].
    + reflexivity.
    + exfalso. apply Hbook. reflexivity.
Qed.

(** A review list with Dune on the shelf: the book comes back with its title
    and its 412 pages, and with progress 0. *)
Lemma goodreads_progress_is_zero_witness :
  exists r,
    settles Goodreads.GET Sample.goodreads_reading = Returned r /\
    property (field r "book") (js "title") = JStr (js "Dune") /\
    property (field r "book") (js "pages") = JNum 412%float /\
    property (field r "book") (js "progress") = JNum 0%float.
Proof.
  eexists. split; [ reflexivity | ].
  split; [ reflexivity | ].
  split; [ reflexivity | ].
  apply (goodreads_progress_is_zero Sample.goodreads_reading).
  - reflexivity.
  - intros H. vm_compute in H. discriminate H.
Defined.

(** ** Both routes *)

(** C5.  In every world each route settles by returning (its promise never
    rejects, whatever is thrown on the way is caught), with status 200 and a
    JSON body; the body carries the [error] flag, and when the flag is set the
    payload is the placeholder: [today = 0] for the review count, [book = null]
    for the reading progress. *)
Theorem routes_never_fail (W : World) :
  (exists r,
     settles Anki.GET W = Returned r /\
     status r = 200%Z /\
     content_type r = Some (js "application/json") /\
     (field r "error" = JBool false \/
      field r "error" = JBool true /\ field r "today" = JNum 0%float))
  /\
  (exists r,
     settles Goodreads.GET W = Returned r /\
     status r = 200%Z /\
     content_type r = Some (js "application/json") /\
     (field r "error" = JBool false \/
      field r "error" = JBool true /\ field r "book" = JNull)).
Proof.
  split.
  - destruct (anki_call_settles W) as [Hfails | [data Hsucceeds]].
    + destruct (anki_run_failure W Hfails) as [error Hrun].
      eexists. unfold settles. rewrite Hrun.
      repeat split. right. split; reflexivity.
    + eexists. unfold settles. rewrite (anki_run_success W data Hsucceeds).
      repeat split. left. reflexivity.
  - destruct (goodreads_lookup_settles W) as [Hfails | [xmlText Hsucceeds]].
    + destruct (goodreads_run_failure W Hfails) as (message & sent & Hrun & _).
      eexists. unfold settles. rewrite Hrun.
      repeat split. right. split; reflexivity.
    + destruct (goodreads_run_success W xmlText Hsucceeds) as [h Hrun].
      eexists. unfold settles. rewrite Hrun.
      repeat split. left. unfold Goodreads.reshaped.
      destruct (Goodreads.currently_reading xmlText) as [[review whole] | ];
        reflexivity.
Qed.

(** C6, as the specification states it, fails: the [Cache-Control] value of a
    route is not the same for all its responses.  Each route answers a
    successful invocation and one in which the remote host cannot be reached
    with different values. *)
Lemma cache_control_differs_on_failure :
  (exists reviewed unavailable,
     settles Anki.GET Sample.anki_twelve = Returned reviewed /\
     settles Anki.GET Sample.anki_offline = Returned unavailable /\
     cache_control reviewed =
       Some (js "public, s-maxage=300, stale-while-revalidate=600") /\
     cache_control unavailable =
       Some (js "public, s-maxage=60, stale-while-revalidate=300") /\
     cache_control reviewed <> cache_control unavailable)
  /\
  (exists reading unavailable,
     settles Goodreads.GET Sample.goodreads_reading = Returned reading /\
     settles Goodreads.GET Sample.goodreads_offline = Returned unavailable /\
     cache_control reading =
       Some (js "public, s-maxage=600, stale-while-revalidate=1800") /\
     cache_control unavailable =
       Some (js "public, s-maxage=60, stale-while-revalidate=300") /\
     cache_control reading <> cache_control unavailable).
Proof.
  split; eexists _, _;
    (split; [ reflexivity | ]); (split; [ reflexivity | ]);
    (split; [ reflexivity | ]); (split; [ reflexivity | ]);
    intros H; vm_compute in H; discriminate H.
Qed.

(** C6, amended.  Every response carries a [Cache-Control] header whose value
    is a literal of its return site.  The review-count route has one value for
    its successes and another one for its failures; the reading-progress route
    has one value for what it returns outside the [catch] block (a book, no
    active book, credentials not configured) and another one for the failures
    it catches. *)
Theorem cache_control_by_return_site (W : World) :
  (exists r,
     settles Anki.GET W = Returned r /\
     cache_control r =
       Some (if truthy (field r "error")
             then js "public, s-maxage=60, stale-while-revalidate=300"
             else js "public, s-maxage=300, stale-while-revalidate=600"))
  /\
  (exists r,
     settles Goodreads.GET W = Returned r /\
     cache_control r =
       Some (if truthy (field r "error") && negb (Goodreads.credentials_missing W)
             then js "public, s-maxage=60, stale-while-revalidate=300"
             else js "public, s-maxage=600, stale-while-revalidate=1800")).
Proof.
  split.
  - destruct (anki_call_settles W) as [Hfails | [data Hsucceeds]].
    + destruct (anki_run_failure W Hfails) as [error Hrun].
      eexists. unfold settles. rewrite Hrun. split; reflexivity.
    + eexists. unfold settles. rewrite (anki_run_success W data Hsucceeds).
      split; reflexivity.
  - destruct (goodreads_lookup_settles W) as [Hfails | [xmlText Hsucceeds]].
    + destruct (goodreads_run_failure W Hfails) as (message & sent & Hrun & _).
      eexists. unfold settles. rewrite Hrun. split; [ reflexivity | ].
      destruct (Goodreads.credentials_missing W); reflexivity.
    + destruct (goodreads_run_success W xmlText Hsucceeds) as [h Hrun].
      eexists. unfold settles. rewrite Hrun. split; [ reflexivity | ].
      unfold Goodreads.reshaped.
      destruct (Goodreads.currently_reading xmlText) as [[review whole] | ];
        reflexivity.
Qed.

(** C8.  Neither route retries: in every world, and so also when the request
    fails, the review-count route sends exactly one request and the
    reading-progress route at most one. *)
Theorem routes_never_retry (W : World) :
  List.length (requests (effects Anki.GET W)) = 1 /\
  List.length (requests (effects Goodreads.GET W)) <= 1.
Proof.
  split.
  - unfold effects.
    destruct (anki_call_settles W) as [Hfails | [data Hsucceeds]].
    + destruct (anki_run_failure W Hfails) as [error ->]. reflexivity.
    + rewrite (anki_run_success W data Hsucceeds). reflexivity.
  - unfold effects.
    destruct (goodreads_lookup_settles W) as [Hfails | [xmlText Hsucceeds]].
    + destruct (goodreads_run_failure W Hfails) as (message & sent & -> & Hsent).
      exact Hsent.
    + destruct (goodreads_run_success W xmlText Hsucceeds) as [h ->].
      cbn. lia.
Qed.

(** * Further properties of the two routes *)

(** ** The review-count route: flags, messages, console *)

(** A call does not both fail and succeed. *)
Lemma anki_fails_not_succeeds (W : World) (data : jsval) :
  Anki.call_fails W -> Anki.call_succeeds W data -> False.
Proof.
  intros Hfails (r & Ha & Hok & Hj & Hn & He).
  destruct Hfails as [e Ha' | r' Ha' Hok' | r' e Ha' Hok' Hj' | r' d Ha' Hok' Hj' Hn'
                     | r' d Ha' Hok' Hj' Hn' He'];
    rewrite Ha in Ha'; try discriminate Ha';
    injection Ha' as <-; congruence.
Qed.

(** X1.  The [error] flag of the response tells the caller exactly what
    happened: it is [true] exactly when the call failed and [false] exactly
    when it succeeded. *)
Theorem anki_error_flag_exact (W : World) :
  exists r,
    settles Anki.GET W = Returned r /\
    (field r "error" = JBool true <-> Anki.call_fails W) /\
    (field r "error" = JBool false <-> exists data, Anki.call_succeeds W data).
Proof.
  destruct (anki_call_settles W) as [Hfails | [data Hsucceeds]].
  - destruct (anki_run_failure W Hfails) as [error Hrun].
    eexists. unfold settles. rewrite Hrun. split; [ reflexivity | ]. split.
    + split; [ intros _; exact Hfails | reflexivity ].
    + split; [ discriminate | ].
      intros [data Hsucceeds]. exfalso.
      exact (anki_fails_not_succeeds W data Hfails Hsucceeds).
  - eexists. unfold settles. rewrite (anki_run_success W data Hsucceeds).
    split; [ reflexivity | ]. split.
    + split; [ discriminate | ].
      intros Hfails. exfalso.
      exact (anki_fails_not_succeeds W data Hfails Hsucceeds).
    + split; [ intros _; now exists data | reflexivity ].
Qed.

(** X2.  A status outside 200-299 is reported with a fixed message, whatever
    the body of the reply: the payload is exactly
    [{today: 0, error: true, message: "AnkiConnect is offline or unreachable"}]. *)
Theorem anki_bad_status_payload (W : World) (reply : FetchResponse) :
  Anki.answer W = Returned reply ->
  ok reply = false ->
  exists r,
    settles Anki.GET W = Returned r /\
    payload r =
      JObj [ (js "today", JNum 0%float);
             (js "error", JBool true);
             (js "message", JStr (js "AnkiConnect is offline or unreachable")) ].
Proof.
  intros Ha Hok. unfold Anki.answer, Anki.configured_host in Ha.
  eexists.
  unfold settles, invoke, Anki.GET, bind, try_catch, ask, fetch, throw, ret,
    console_error.
  cbn [requests app]. rewrite Ha, Hok. cbn [negb fst].
  split; reflexivity.
Qed.

Lemma anki_bad_status_payload_witness :
  exists r,
    settles Anki.GET Sample.anki_bad_gateway = Returned r /\
    payload r =
      JObj [ (js "today", JNum 0%float);
             (js "error", JBool true);
             (js "message", JStr (js "AnkiConnect is offline or unreachable")) ].
Proof.
  apply (anki_bad_status_payload Sample.anki_bad_gateway
           (Sample.text_reply 502 (js "Bad Gateway"))); reflexivity.
Defined.

(** X3.  The text of an error that AnkiConnect reports is handed on: when the
    reply has a string that is not empty as its [error], that string is the
    [message] of the response. *)
Theorem anki_error_text_passed_on (W : World) (reply : FetchResponse)
    (data : jsval) (c : code_unit) (text : jsstring) :
  Anki.answer W = Returned reply ->
  ok reply = true ->
  resp_json reply = Returned data ->
  property data (js "error") = JStr (c :: text) ->
  exists r,
    settles Anki.GET W = Returned r /\
    field r "error" = JBool true /\
    field r "message" = JStr (c :: text).
Proof.
  intros Ha Hok Hj He. unfold Anki.answer, Anki.configured_host in Ha.
  assert (Hn : nullish data = false).
  { destruct data; try reflexivity; discriminate He. }
  eexists.
  unfold settles, invoke, Anki.GET, bind, try_catch, ask, fetch, await, get_prop,
    throw, ret, console_error.
  cbn [requests app]. rewrite Ha, Hok. cbn [negb].
  rewrite Hj, Hn, He. cbn [truthy new_Error fst].
  repeat split.
Qed.

Lemma anki_error_text_passed_on_witness :
  exists r,
    settles Anki.GET Sample.anki_refused = Returned r /\
    field r "error" = JBool true /\
    field r "message" = JStr (js "unsupported action").
Proof.
  apply (anki_error_text_passed_on Sample.anki_refused
           (Sample.json_reply 200 Sample.unsupported_action)
           Sample.unsupported_action); reflexivity.
Defined.

(** X4.  A failed call leaves exactly one line on the console, with the value
    that was caught, and the [message] of the response is that value's message
    (["AnkiConnect offline"] when it is not an [Error]); a successful call
    leaves none, and its payload has no [message]. *)
Theorem anki_console (W : World) :
  exists r,
    settles Anki.GET W = Returned r /\
    ((Anki.call_fails W /\
      exists error,
        console (effects Anki.GET W) = [ (js "AnkiConnect error:", error) ] /\
        field r "message" = JStr (message_or (js "AnkiConnect offline") error))
     \/
     ((exists data, Anki.call_succeeds W data) /\
      console (effects Anki.GET W) = [] /\
      field r "message" = JUndefined)).
Proof.
  destruct (anki_call_settles W) as [Hfails | [data Hsucceeds]].
  - destruct (anki_run_failure W Hfails) as [error Hrun].
    eexists. unfold settles, effects. rewrite Hrun.
    split; [ reflexivity | ]. left. split; [ exact Hfails | ].
    exists error. split; reflexivity.
  - eexists. unfold settles, effects. rewrite (anki_run_success W data Hsucceeds).
    split; [ reflexivity | ]. right.
    split; [ now exists data | split; reflexivity ].
Qed.

(** X5.  The body of every response has a [today]: it is the number 0, or a
    truthy value, or, only when the call succeeded with an infinite number as
    its result (a numeral beyond the range of a double), [null].  It is never
    missing. *)
Theorem anki_today_defined (W : World) :
  exists r,
    settles Anki.GET W = Returned r /\
    body_field r "today" <> JUndefined /\
    (body_field r "today" = JNum 0%float \/
     truthy (body_field r "today") = true \/
     (body_field r "today" = JNull /\
      exists data n,
        Anki.call_succeeds W data /\
        property data (js "result") = JNum n /\
        PrimFloat.is_infinity n = true)).
Proof.
  assert (Hcases : forall r,
             body_field r "today" = JNum 0%float \/
             truthy (body_field r "today") = true \/
             (body_field r "today" = JNull /\
              exists data n,
                Anki.call_succeeds W data /\
                property data (js "result") = JNum n /\
                PrimFloat.is_infinity n = true) ->
             body_field r "today" <> JUndefined).
  { intros r [-> | [Ht | [-> _]]]; try discriminate.
    intros Hu. rewrite Hu in Ht. discriminate Ht. }
  destruct (anki_call_settles W) as [Hfails | [data Hsucceeds]].
  - destruct (anki_run_failure W Hfails) as [error Hrun].
    eexists. unfold settles. rewrite Hrun.
    split; [ reflexivity | ].
    split; [ apply Hcases | ]; left; rewrite body_field_written; reflexivity.
  - exists (Anki.reviewed data).
    unfold settles. rewrite (anki_run_success W data Hsucceeds).
    split; [ reflexivity | ].
    assert (Hthree :
              body_field (Anki.reviewed data) "today" = JNum 0%float \/
              truthy (body_field (Anki.reviewed data) "today") = true \/
              (body_field (Anki.reviewed data) "today" = JNull /\
               exists data0 n,
                 Anki.call_succeeds W data0 /\
                 property data0 (js "result") = JNum n /\
                 PrimFloat.is_infinity n = true)).
    { rewrite body_field_written.
      change (field (Anki.reviewed data) "today") with (Anki.reviewed_today data).
      unfold Anki.reviewed_today, js_or.
      destruct (truthy (property data (js "result"))) eqn:Ht;
        [ | left; reflexivity ].
      destruct (truthy_written _ Ht) as [Hw | (n & Hn & Hinf & Hnull)].
      - right. left. exact Hw.
      - right. right. split; [ exact Hnull | ].
        exists data, n. repeat split; assumption. }
    split; [ now apply Hcases | exact Hthree ].
Qed.

(** With a result of [Infinity] the [today] of the body is [null]. *)
Lemma anki_today_defined_witness :
  exists r,
    settles Anki.GET Sample.anki_overflow = Returned r /\
    body_field r "today" = JNull /\
    body_field r "today" <> JUndefined.
Proof.
  destruct (anki_today_defined Sample.anki_overflow) as (r & Hr & Hdefined & _).
  exists r. split; [ exact Hr | ]. split; [ | exact Hdefined ].
  vm_compute in Hr. injection Hr as <-. reflexivity.
Defined.

(** X6.  A reply that is JSON but not an object (a bare number, string,
    boolean or array, as AnkiConnect sends below protocol version 5) counts as
    a success without a result: the payload is exactly
    [{today: 0, error: false}]. *)
Theorem anki_bare_reply_counts_zero (W : World) (reply : FetchResponse)
    (data : jsval) :
  Anki.answer W = Returned reply ->
  ok reply = true ->
  resp_json reply = Returned data ->
  nullish data = false ->
  (forall props, data <> JObj props) ->
  exists r,
    settles Anki.GET W = Returned r /\
    payload r = JObj [ (js "today", JNum 0%float); (js "error", JBool false) ].
Proof.
  intros Ha Hok Hj Hn Hbare.
  assert (Hprop : forall k, property data k = JUndefined).
  { intros k. destruct data; try reflexivity. now destruct (Hbare props). }
  assert (Hsucceeds : Anki.call_succeeds W data).
  { exists reply. rewrite Hprop. repeat split; assumption. }
  eexists. unfold settles. rewrite (anki_run_success W data Hsucceeds).
  split; [ reflexivity | ].
  unfold Anki.reviewed, payload, body, Anki.reviewed_today. rewrite Hprop.
  reflexivity.
Qed.

Lemma anki_bare_reply_counts_zero_witness :
  exists r,
    settles Anki.GET Sample.anki_bare_count = Returned r /\
    payload r = JObj [ (js "today", JNum 0%float); (js "error", JBool false) ].
Proof.
  apply (anki_bare_reply_counts_zero Sample.anki_bare_count
           (Sample.json_reply 200 (JNum 5%float)) (JNum 5%float));
    try reflexivity.
  intros props H. discriminate H.
Defined.

(** ** The reading-progress route: request, flags, messages, console *)

Ltac run_route :=
  unfold settles, effects, invoke, Goodreads.GET, bind, try_catch, ask, fetch,
    await, throw, ret, console_error;
  cbn [requests app].

(** A lookup does not both fail and succeed. *)
Lemma goodreads_fails_not_succeeds (W : World) (xmlText : jsstring) :
  Goodreads.lookup_fails W -> Goodreads.lookup_succeeds W xmlText -> False.
Proof.
  intros Hfails (Hm & h & r & Hs & Ha & Hok & Ht).
  destruct Hfails as [Hm' | e _ Hs' | h' e _ Hs' Ha' | h' r' _ Hs' Ha' Hok'
                     | h' r' e _ Hs' Ha' Hok' Ht'];
    [ congruence | congruence | | | ];
    rewrite Hs in Hs'; injection Hs' as <-;
    rewrite Ha in Ha'; try discriminate Ha';
    injection Ha' as <-; congruence.
Qed.

(** X7.  The route sends a request only when the three credentials are set
    and not empty and the request could be signed, and then it is this one: a
    GET of the review list of the configured user,
    [https://www.goodreads.com/review/list/<user id>.xml] with the user id
    spliced in as it is, signed with the configured key and secret, with the
    headers of the signature and nothing else, and without a body. *)
Theorem goodreads_outbound_request (W : World) :
  requests (effects Goodreads.GET W) =
    match GOODREADS_KEY (env W), GOODREADS_SECRET (env W),
          GOODREADS_USER_ID (env W) with
    | Some (k :: key), Some (s :: secret), Some (u :: user_id) =>
        match oauth_header (host W) (k :: key) (s :: secret)
                (js "https://www.goodreads.com/review/list/"
                 ++ (u :: user_id) ++ js ".xml")
                (js "GET") with
        | Returned authHeader =>
            [ {| url := js "https://www.goodreads.com/review/list/"
                        ++ (u :: user_id) ++ js ".xml";
                 method := js "GET";
                 req_headers := authHeader;
                 req_body := None |} ]
        | Thrown _ => []
        end
    | _, _, _ => []
    end.
Proof.
  destruct (Goodreads.credentials_missing W) eqn:Hm.
  - unfold effects. rewrite (goodreads_run_not_configured W Hm). cbn [snd requests].
    unfold Goodreads.credentials_missing, env_missing in Hm.
    destruct (GOODREADS_KEY (env W)) as [[ | k key] | ]; try reflexivity.
    destruct (GOODREADS_SECRET (env W)) as [[ | s secret] | ]; try reflexivity.
    destruct (GOODREADS_USER_ID (env W)) as [[ | u user_id] | ]; try reflexivity.
    discriminate Hm.
  - unfold Goodreads.credentials_missing in Hm.
    run_route. rewrite Hm.
    unfold env_missing in Hm.
    destruct (GOODREADS_KEY (env W)) as [[ | k key] | ]; try discriminate Hm.
    destruct (GOODREADS_SECRET (env W)) as [[ | s secret] | ]; try discriminate Hm.
    destruct (GOODREADS_USER_ID (env W)) as [[ | u user_id] | ]; try discriminate Hm.
    unfold Goodreads.list_url, Goodreads.list_request, Goodreads.env_string.
    destruct (oauth_header _ _ _ _ _) as [h | e]; cbn [requests app snd];
      [ | reflexivity ].
    destruct (network W [] _) as [r | e]; cbn [snd]; [ | reflexivity ].
    destruct (ok r); cbn [negb snd]; [ | reflexivity ].
    destruct (resp_text r) as [xmlText | e]; cbn [snd]; [ | reflexivity ].
    destruct (Goodreads.currently_reading xmlText) as [[review whole] | ];
      reflexivity.
Qed.

(** With the sample credentials the request goes to the list of user 12345678
    and carries the header signed with the sample key; with the user id empty
    nothing is sent. *)
Lemma goodreads_outbound_request_witness :
  GOODREADS_USER_ID (env Sample.goodreads_reading) = Some (js "12345678") /\
  requests (effects Goodreads.GET Sample.goodreads_reading) =
    [ {| url := js "https://www.goodreads.com/review/list/12345678.xml";
         method := js "GET";
         req_headers :=
           [ (js "Authorization", js "OAuth oauth_consumer_key=your_dev_key") ];
         req_body := None |} ] /\
  GOODREADS_USER_ID (env Sample.goodreads_no_user) = Some [] /\
  requests (effects Goodreads.GET Sample.goodreads_no_user) = [].
Proof.
  split; [ reflexivity | ].
  split; [ exact (goodreads_outbound_request Sample.goodreads_reading) | ].
  split; [ reflexivity | ].
  exact (goodreads_outbound_request Sample.goodreads_no_user).
Defined.

(** X8.  The [error] flag is [true] exactly when the lookup failed, and the
    response holds a book exactly when the lookup succeeded and the review
    list has a match of the currently-reading expression. *)
Theorem goodreads_flags_exact (W : World) :
  exists r,
    settles Goodreads.GET W = Returned r /\
    (field r "error" = JBool true <-> Goodreads.lookup_fails W) /\
    (field r "book" <> JNull <->
     exists xmlText,
       Goodreads.lookup_succeeds W xmlText /\
       Goodreads.currently_reading xmlText <> None).
Proof.
  destruct (goodreads_lookup_settles W) as [Hfails | [xmlText Hsucceeds]].
  - destruct (goodreads_run_failure W Hfails) as (message & sent & Hrun & _).
    eexists. unfold settles. rewrite Hrun. split; [ reflexivity | ]. split.
    + split; [ intros _; exact Hfails | reflexivity ].
    + split.
      * intros Hbook. exfalso. apply Hbook. reflexivity.
      * intros (xmlText & Hsucceeds & _). exfalso.
        exact (goodreads_fails_not_succeeds W xmlText Hfails Hsucceeds).
  - destruct (goodreads_run_success W xmlText Hsucceeds) as [h Hrun].
    assert (Hsame : forall x, Goodreads.lookup_succeeds W x -> x = xmlText).
    { intros x (_ & h1 & r1 & Hs1 & Ha1 & _ & Ht1).
      destruct Hsucceeds as (_ & h2 & r2 & Hs2 & Ha2 & _ & Ht2).
      rewrite Hs1 in Hs2. injection Hs2 as <-.
      rewrite Ha1 in Ha2. injection Ha2 as <-.
      rewrite Ht1 in Ht2. now injection Ht2. }
    eexists. unfold settles. rewrite Hrun. split; [ reflexivity | ].
    unfold Goodreads.reshaped.
    destruct (Goodreads.currently_reading xmlText) as [[review whole] | ] eqn:Hmatch.
    + split.
      * split; [ discriminate | ].
        intros Hfails. exfalso.
        exact (goodreads_fails_not_succeeds W xmlText Hfails Hsucceeds).
      * split; [ | intros _; discriminate ].
        intros _. exists xmlText. split; [ exact Hsucceeds | ].
        rewrite Hmatch. discriminate.
    + split.
      * split; [ discriminate | ].
        intros Hfails. exfalso.
        exact (goodreads_fails_not_succeeds W xmlText Hfails Hsucceeds).
      * split.
        -- intros Hbook. exfalso. apply Hbook. reflexivity.
        -- intros (x & Hx & Hsome). rewrite (Hsame x Hx) in Hsome.
           now rewrite Hmatch in Hsome.
Qed.

(** X9.  A status outside 200-299 is reported with its code: the [message] of
    the response is ["Goodreads API error: "] followed by the status in
    decimal, whatever the body of the reply. *)
Theorem goodreads_status_in_message (W : World) (authHeader : list header)
    (reply : FetchResponse) :
  Goodreads.credentials_missing W = false ->
  Goodreads.signature W = Returned authHeader ->
  Goodreads.answer W authHeader = Returned reply ->
  ok reply = false ->
  exists r,
    settles Goodreads.GET W = Returned r /\
    field r "error" = JBool true /\
    field r "message" =
      JStr (js "Goodreads API error: " ++ decimal (resp_status reply)).
Proof.
  intros Hm Hs Ha Hok.
  unfold Goodreads.credentials_missing in Hm.
  unfold Goodreads.signature in Hs. unfold Goodreads.answer in Ha.
  eexists. run_route. rewrite Hm, Hs. cbn [requests app].
  rewrite Ha, Hok. cbn [negb fst].
  repeat split.
Qed.

Lemma goodreads_status_in_message_witness :
  exists r,
    settles Goodreads.GET Sample.goodreads_unauthorized = Returned r /\
    field r "error" = JBool true /\
    field r "message" = JStr (js "Goodreads API error: 401").
Proof.
  exact (goodreads_status_in_message Sample.goodreads_unauthorized
           [ (js "Authorization", js "OAuth oauth_consumer_key=your_dev_key") ]
           (Sample.text_reply 401 (js "Invalid API key."))
           eq_refl eq_refl eq_refl eq_refl).
Defined.

(** X10.  The console gets a line only from the [catch] block: none when the
    credentials are missing (and then there is no effect at all), none when the
    lookup succeeds, and exactly one, with the value that was caught, when a
    lookup with the credentials present fails; the [message] of that response
    is the value's message (["Unknown error"] when it is not an [Error]). *)
Theorem goodreads_console (W : World) :
  exists r,
    settles Goodreads.GET W = Returned r /\
    ((Goodreads.credentials_missing W = true /\ effects Goodreads.GET W = [] /\
      field r "message" = JStr (js "Goodreads credentials not configured"))
     \/
     (Goodreads.credentials_missing W = false /\ Goodreads.lookup_fails W /\
      exists error,
        console (effects Goodreads.GET W) = [ (js "Goodreads API error:", error) ] /\
        field r "message" = JStr (message_or (js "Unknown error") error))
     \/
     ((exists xmlText, Goodreads.lookup_succeeds W xmlText) /\
      console (effects Goodreads.GET W) = [])).
Proof.
  destruct (goodreads_lookup_settles W) as [Hfails | [xmlText Hsucceeds]].
  - destruct (Goodreads.credentials_missing W) eqn:Hm.
    + eexists. unfold settles, effects.
      rewrite (goodreads_run_not_configured W Hm).
      split; [ reflexivity | ]. left. repeat split.
    + destruct (goodreads_run_caught W Hfails Hm) as (error & sent & Hrun & Hsent).
      eexists. unfold settles, effects. rewrite Hrun.
      split; [ reflexivity | ]. right. left.
      split; [ reflexivity | ]. split; [ exact Hfails | ].
      exists error. split; [ | reflexivity ].
      destruct Hsent as [-> | [h ->]]; reflexivity.
  - destruct (goodreads_run_success W xmlText Hsucceeds) as [h Hrun].
    eexists. unfold settles, effects. rewrite Hrun.
    split; [ reflexivity | ]. right. right.
    split; [ now exists xmlText | reflexivity ].
Qed.

(** ** The regular expressions: the first match, and the shortest *)

(** The lazy run ends in front of the first occurrence of the closing literal. *)
Lemma lazy_run_shortest (class : code_unit -> bool) (close s run : jsstring) :
  lazy_run class close s = Some run ->
  forall mid rest, s = mid ++ close ++ rest -> List.length run <= List.length mid.
Proof.
  revert run. induction s as [ | c s IH]; intros run H mid rest Hs.
  - cbn in H. destruct (after_literal close []); [ | discriminate ].
    injection H as <-. cbn. lia.
  - cbn [lazy_run] in H.
    destruct (after_literal close (c :: s)) eqn:Hclose.
    + injection H as <-. cbn. lia.
    + destruct mid as [ | d mid].
      * cbn [app] in Hs. rewrite Hs, after_literal_complete in Hclose.
        discriminate Hclose.
      * cbn [app] in Hs. injection Hs as <- ->.
        destruct (class c); [ | discriminate ].
        destruct (lazy_run class close (mid ++ close ++ rest)) as [run' | ] eqn:Hrun;
          [ | discriminate ].
        cbn in H. injection H as <-.
        specialize (IH run' eq_refl mid rest eq_refl). cbn. lia.
Qed.

(** The lazy run reaches a closing literal that stands behind code units of
    its class. *)
Lemma lazy_run_reaches (class : code_unit -> bool) (close mid rest : jsstring) :
  forallb class mid = true ->
  lazy_run class close (mid ++ close ++ rest) <> None.
Proof.
  induction mid as [ | c mid IH]; intros Hclass.
  - cbn [app]. destruct close as [ | d close]; [ destruct rest; discriminate | ].
    cbn [app lazy_run].
    change (after_literal (d :: close) (d :: close ++ rest))
      with (after_literal (d :: close) ((d :: close) ++ rest)).
    rewrite after_literal_complete. discriminate.
  - cbn [forallb] in Hclass. apply andb_true_iff in Hclass as [Hc Hmid].
    cbn [app lazy_run].
    destruct (after_literal close (c :: mid ++ close ++ rest)); [ discriminate | ].
    rewrite Hc. specialize (IH Hmid).
    destruct (lazy_run class close (mid ++ close ++ rest));
      [ discriminate | contradiction ].
Qed.

(** The match starts at the first position where the opening literal, a run
    in the class and the closing literal follow each other, and its run is the
    shortest there. *)
Lemma regex_match_first (open : jsstring) (class : code_unit -> bool)
    (close s whole run : jsstring) :
  regex_match open class close s = Some (whole, run) ->
  exists before rest,
    s = before ++ open ++ run ++ close ++ rest /\
    (forall a mid c,
       s = a ++ open ++ mid ++ close ++ c -> forallb class mid = true ->
       List.length before <= List.length a) /\
    (forall mid c,
       run ++ close ++ rest = mid ++ close ++ c ->
       List.length run <= List.length mid).
Proof.
  revert whole run. induction s as [ | ch s IH]; intros whole run H.
  - cbn [regex_match] in H.
    destruct (after_literal open []) as [r | ] eqn:Hopen; [ | discriminate ].
    destruct (lazy_run class close r) as [run' | ] eqn:Hrun; [ | discriminate ].
    injection H as <- <-.
    apply after_literal_sound in Hopen.
    destruct (lazy_run_sound _ _ _ _ Hrun) as (_ & rest & Hr).
    exists [], rest.
    split; [ cbn [app]; rewrite <- Hr; exact Hopen | ]. split.
    + intros; cbn; lia.
    + intros mid c Hmid. rewrite <- Hr in Hmid.
      exact (lazy_run_shortest _ _ _ _ Hrun mid c Hmid).
  - cbn [regex_match] in H.
    destruct (match after_literal open (ch :: s) with
              | Some r => lazy_run class close r
              | None => None
              end) as [run' | ] eqn:Hhere.
    + injection H as <- <-.
      destruct (after_literal open (ch :: s)) as [r | ] eqn:Hopen; [ | discriminate ].
      apply after_literal_sound in Hopen.
      destruct (lazy_run_sound _ _ _ _ Hhere) as (_ & rest & Hr).
      exists [], rest.
      split; [ cbn [app]; rewrite <- Hr; exact Hopen | ]. split.
      * intros; cbn; lia.
      * intros mid c Hmid. rewrite <- Hr in Hmid.
        exact (lazy_run_shortest _ _ _ _ Hhere mid c Hmid).
    + destruct (IH whole run H) as (before & rest & Hs & Hfirst & Hshort).
      exists (ch :: before), rest. split; [ cbn [app]; now rewrite Hs | ].
      split; [ | exact Hshort ].
      intros a mid c Ha Hclass. destruct a as [ | d a].
      * exfalso. cbn [app] in Ha. rewrite Ha, after_literal_complete in Hhere.
        exact (lazy_run_reaches class close mid c Hclass Hhere).
      * cbn [app] in Ha. injection Ha as _ Ha.
        specialize (Hfirst a mid c Ha Hclass). cbn. lia.
Qed.

(** X11.  Of several reviews on the currently-reading shelf the route reads the
    first: the text it goes on with starts at the first opening of a
    currently-reading shelf element that has an end of review behind it, and
    stops at the first end of review behind that opening. *)
Theorem currently_reading_first_entry (xmlText whole run : jsstring) :
  Goodreads.currently_reading xmlText = Some (whole, run) ->
  whole = Goodreads.shelf_open ++ run ++ js "</review>" /\
  exists before rest,
    xmlText = before ++ whole ++ rest /\
    (forall a mid c,
       xmlText = a ++ Goodreads.shelf_open ++ mid ++ js "</review>" ++ c ->
       List.length before <= List.length a) /\
    (forall mid c,
       run ++ js "</review>" ++ rest = mid ++ js "</review>" ++ c ->
       List.length run <= List.length mid).
Proof.
  intros Hmatch. unfold Goodreads.currently_reading in Hmatch.
  destruct (regex_match_sound _ _ _ _ _ _ Hmatch) as (Hwhole & _ & _).
  split; [ exact Hwhole | ].
  destruct (regex_match_first _ _ _ _ _ _ Hmatch)
    as (before & rest & Hx & Hfirst & Hshort).
  exists before, rest. split.
  - rewrite Hx, Hwhole. now rewrite <- !app_assoc.
  - split; [ | exact Hshort ].
    intros a mid c Ha. apply (Hfirst a mid c Ha).
    apply forallb_forall. reflexivity.
Qed.

(** With Dune and Emma on the shelf the match is the rest of Dune's review. *)
Lemma currently_reading_first_entry_witness :
  Goodreads.currently_reading Sample.reading_two =
    Some (Goodreads.shelf_open ++ js "/><title><![CDATA[Dune]]></title>" ++ js "</review>",
          js "/><title><![CDATA[Dune]]></title>")
  /\
  exists before rest,
    Sample.reading_two =
      before
      ++ (Goodreads.shelf_open ++ js "/><title><![CDATA[Dune]]></title>" ++ js "</review>")
      ++ rest /\
    (forall a mid c,
       Sample.reading_two = a ++ Goodreads.shelf_open ++ mid ++ js "</review>" ++ c ->
       List.length before <= List.length a) /\
    (forall mid c,
       js "/><title><![CDATA[Dune]]></title>" ++ js "</review>" ++ rest
       = mid ++ js "</review>" ++ c ->
       List.length (js "/><title><![CDATA[Dune]]></title>") <= List.length mid).
Proof.
  assert (H : Goodreads.currently_reading Sample.reading_two =
              Some (Goodreads.shelf_open ++ js "/><title><![CDATA[Dune]]></title>"
                    ++ js "</review>",
                    js "/><title><![CDATA[Dune]]></title>")).
  { reflexivity. }
  split; [ exact H | ].
  exact (proj2 (currently_reading_first_entry _ _ _ H)).
Defined.

(** ** The book of the reading-progress route *)

Lemma occurs_in_inside (p s before rest : jsstring) :
  occurs_in p s -> occurs_in p (before ++ s ++ rest).
Proof.
  intros (b & r & ->). exists (before ++ b), (r ++ rest).
  now rewrite <- !app_assoc.
Qed.

Lemma occursb_complete (p s : jsstring) :
  occurs_in p s -> occursb p s = true.
Proof.
  intros (before & rest & ->).
  induction before as [ | c before IH].
  - cbn [app]. destruct (p ++ rest) as [ | d t] eqn:Hpr; cbn [occursb];
      rewrite <- Hpr, after_literal_complete; reflexivity.
  - cbn [app occursb]. rewrite IH.
    now destruct (after_literal p (c :: before ++ p ++ rest)).
Qed.

(** An expression matches only where its opening literal occurs. *)
Lemma regex_match_opening_occurs (open : jsstring) (class : code_unit -> bool)
    (close s : jsstring) :
  ~ occurs_in open s -> regex_match open class close s = None.
Proof.
  intros Habsent.
  destruct (regex_match open class close s) as [[whole run] | ] eqn:Hm;
    [ | reflexivity ].
  destruct (regex_match_sound _ _ _ _ _ _ Hm) as (-> & _ & before & rest & ->).
  exfalso. apply Habsent. exists before, (run ++ close ++ rest).
  now rewrite <- !app_assoc.
Qed.

(** X12.  A book in the body of a response has exactly the four properties
    [title], [progress], [pages] and [current], with [progress = 0] and
    [current = true].  Its title has no line terminator in it, and it is either
    the placeholder ["Unknown Book"] or a text that stands in the review list
    between [<title><![CDATA[] and []]></title>].  Its [pages] is a finite
    number, or [null] when [parseInt] made no finite number of the page
    count. *)
Theorem goodreads_book_shape (W : World) (r : Response) :
  settles Goodreads.GET W = Returned r ->
  body_field r "book" <> JNull ->
  exists xmlText t pages,
    Goodreads.lookup_succeeds W xmlText /\
    body_json r =
      JObj [ (js "error", JBool false);
             (js "book",
              JObj [ (js "title", JStr t);
                     (js "progress", JNum 0%float);
                     (js "pages", pages);
                     (js "current", JBool true) ]) ] /\
    forallb not_line_terminator t = true /\
    (t = js "Unknown Book" \/
     occurs_in (js "<title><![CDATA[" ++ t ++ js "]]></title>") xmlText) /\
    (pages = JNull \/
     exists p, pages = JNum p /\
               PrimFloat.is_nan p = false /\ PrimFloat.is_infinity p = false).
Proof.
  intros Hr Hbook.
  destruct (goodreads_lookup_settles W) as [Hfails | [xmlText Hsucceeds]].
  { destruct (goodreads_run_failure W Hfails) as (message & sent & Hrun & _).
    unfold settles in Hr. rewrite Hrun in Hr. cbn [fst] in Hr.
    injection Hr as <-. exfalso. apply Hbook.
    rewrite body_field_written. reflexivity. }
  destruct (goodreads_run_success W xmlText Hsucceeds) as [h Hrun].
  unfold settles in Hr. rewrite Hrun in Hr. cbn [fst] in Hr.
  injection Hr as <-. unfold Goodreads.reshaped in *.
  destruct (Goodreads.currently_reading xmlText) as [[review run] | ] eqn:Hmatch.
  2:{ exfalso. apply Hbook. rewrite body_field_written. reflexivity. }
  unfold Goodreads.currently_reading in Hmatch.
  destruct (regex_match_sound _ _ _ _ _ _ Hmatch) as (_ & _ & before & rest & Hx).
  exists xmlText.
  assert (Hpages : forall p,
             json_of (JNum p) = JNull \/
             exists q, json_of (JNum p) = JNum q /\
                       PrimFloat.is_nan q = false /\
                       PrimFloat.is_infinity q = false).
  { intros p. cbn [json_of].
    destruct (json_number_cases p) as [[-> _] | [[-> _] | (-> & _ & Hnan & Hinf)]].
    - now left.
    - right. exists 0%float. repeat split.
    - right. exists p. repeat split; assumption. }
  assert (Hbody : forall t p,
             body_json (Goodreads.respond
                          (JObj [ (js "error", JBool false);
                                  (js "book",
                                   JObj [ (js "title", JStr t);
                                          (js "progress", JNum 0%float);
                                          (js "pages", JNum p);
                                          (js "current", JBool true) ]) ])
                          Goodreads.long_cache)
             = JObj [ (js "error", JBool false);
                      (js "book",
                       JObj [ (js "title", JStr t);
                              (js "progress", JNum 0%float);
                              (js "pages", json_of (JNum p));
                              (js "current", JBool true) ]) ]).
  { intros t p. reflexivity. }
  unfold Goodreads.found, Goodreads.Book_value, Goodreads.book_of.
  cbn [Goodreads.title Goodreads.progress Goodreads.pages Goodreads.current].
  destruct (Goodreads.title_of review) as [[whole t] | ] eqn:Htitle.
  - unfold Goodreads.title_of in Htitle.
    destruct (regex_match_sound _ _ _ _ _ _ Htitle) as (-> & Hclass & b & c & Hreview).
    eexists t, _. split; [ exact Hsucceeds | ]. split; [ apply Hbody | ].
    split; [ exact Hclass | ]. split; [ | apply Hpages ].
    right. rewrite Hx. apply occurs_in_inside. now exists b, c.
  - eexists _, _. split; [ exact Hsucceeds | ]. split; [ apply Hbody | ].
    split; [ reflexivity | ]. split; [ left; reflexivity | apply Hpages ].
Qed.

(** Dune with its 412 pages, and Dune with an empty page count, of which the
    sample [parseInt] makes [NaN]: the [pages] of the body is [null]. *)
Lemma goodreads_book_shape_witness :
  (exists r,
     settles Goodreads.GET Sample.goodreads_reading = Returned r /\
     body_field r "book" =
       JObj [ (js "title", JStr (js "Dune"));
              (js "progress", JNum 0%float);
              (js "pages", JNum 412%float);
              (js "current", JBool true) ] /\
     exists xmlText t pages,
       Goodreads.lookup_succeeds Sample.goodreads_reading xmlText /\
       body_json r =
         JObj [ (js "error", JBool false);
                (js "book",
                 JObj [ (js "title", JStr t);
                        (js "progress", JNum 0%float);
                        (js "pages", pages);
                        (js "current", JBool true) ]) ] /\
       forallb not_line_terminator t = true /\
       (t = js "Unknown Book" \/
        occurs_in (js "<title><![CDATA[" ++ t ++ js "]]></title>") xmlText) /\
       (pages = JNull \/
        exists p, pages = JNum p /\
                  PrimFloat.is_nan p = false /\ PrimFloat.is_infinity p = false))
  /\
  (exists r,
     settles Goodreads.GET Sample.goodreads_unpaged = Returned r /\
     body_field r "book" =
       JObj [ (js "title", JStr (js "Dune"));
              (js "progress", JNum 0%float);
              (js "pages", JNull);
              (js "current", JBool true) ]).
Proof.
  split.
  - eexists. split; [ reflexivity | ]. split; [ reflexivity | ].
    apply (goodreads_book_shape Sample.goodreads_reading).
    + reflexivity.
    + intros H. vm_compute in H. discriminate H.
  - eexists. split; reflexivity.
Defined.

(** X13.  The title and the page count are looked for only in the text that
    the currently-reading expression matched, from the shelf element to the
    end of the review: when no [<title><![CDATA[] occurs there the title is
    ["Unknown Book"], and when no [<num_pages>] occurs there the page count is
    0, whatever stands in front of the shelf element. *)
Theorem goodreads_defaults (W : World) (xmlText whole run : jsstring) :
  Goodreads.lookup_succeeds W xmlText ->
  Goodreads.currently_reading xmlText = Some (whole, run) ->
  exists r,
    settles Goodreads.GET W = Returned r /\
    (~ occurs_in (js "<title><![CDATA[") whole ->
     property (field r "book") (js "title") = JStr (js "Unknown Book")) /\
    (~ occurs_in (js "<num_pages>") whole ->
     property (field r "book") (js "pages") = JNum 0%float).
Proof.
  intros Hsucceeds Hmatch.
  destruct (goodreads_run_success W xmlText Hsucceeds) as [h Hrun].
  eexists. unfold settles. rewrite Hrun. split; [ reflexivity | ].
  unfold Goodreads.reshaped. rewrite Hmatch.
  unfold Goodreads.found, Goodreads.Book_value, Goodreads.book_of.
  cbn [Goodreads.title Goodreads.progress Goodreads.pages Goodreads.current].
  split; intros Habsent.
  - unfold Goodreads.title_of.
    now rewrite (regex_match_opening_occurs _ _ _ _ Habsent).
  - unfold Goodreads.num_pages_of.
    now rewrite (regex_match_opening_occurs _ _ _ _ Habsent).
Qed.

(** In a review list laid out as Goodreads does, with the book in front of the
    shelves, the route finds neither the title nor the page count. *)
Lemma goodreads_defaults_witness :
  occurs_in (js "<title><![CDATA[Dune]]></title>") Sample.book_before_shelves /\
  exists r,
    settles Goodreads.GET Sample.goodreads_book_before_shelves = Returned r /\
    property (field r "book") (js "title") = JStr (js "Unknown Book") /\
    property (field r "book") (js "pages") = JNum 0%float.
Proof.
  split.
  { exists (js "<GoodreadsResponse><reviews><review><book>"),
      (js "<num_pages>412</num_pages></book>"
       ++ js "<shelves>" ++ Goodreads.shelf_open ++ js " exclusive="
       ++ Goodreads.quotation_mark ++ js "true" ++ Goodreads.quotation_mark
       ++ js "/></shelves>"
       ++ js "</review></reviews></GoodreadsResponse>").
    reflexivity. }
  assert (Hs : Goodreads.lookup_succeeds Sample.goodreads_book_before_shelves
                 Sample.book_before_shelves).
  { split; [ reflexivity | ]. eexists _, _. repeat split; reflexivity. }
  assert (Hm : Goodreads.currently_reading Sample.book_before_shelves =
               Some (Goodreads.shelf_open
                     ++ (js " exclusive=" ++ Goodreads.quotation_mark ++ js "true"
                         ++ Goodreads.quotation_mark ++ js "/></shelves>")
                     ++ js "</review>",
                     js " exclusive=" ++ Goodreads.quotation_mark ++ js "true"
                     ++ Goodreads.quotation_mark ++ js "/></shelves>")).
  { reflexivity. }
  destruct (goodreads_defaults _ _ _ _ Hs Hm) as (r & Hr & Htitle & Hpages).
  exists r. split; [ exact Hr | ]. split.
  - apply Htitle. intros Hocc. apply occursb_complete in Hocc.
    vm_compute in Hocc. discriminate Hocc.
  - apply Hpages. intros Hocc. apply occursb_complete in Hocc.
    vm_compute in Hocc. discriminate Hocc.
Defined.

(** ** The route of the architecture document against the route as built *)

(** X14.  With the default host both versions send the same request.  The
    version of the document answers 503 where it catches something, and there
    the route as built answers 200 with [error = true]; and wherever the route
    as built reports a success with a truthy result, the version of the
    document answers 200 with the same [today]. *)
Theorem design_route_against_built (W : World) :
  Anki.configured_host W = js "http://localhost:8765" ->
  requests (effects Design.GET W) = requests (effects Anki.GET W) /\
  exists designed built,
    settles Design.GET W = Returned designed /\
    settles Anki.GET W = Returned built /\
    status built = 200%Z /\
    (status designed = 200%Z \/ status designed = 503%Z) /\
    (status designed = 503%Z ->
     field designed "today" = JNum 0%float /\
     field designed "error" = JBool true /\
     field built "today" = JNum 0%float /\
     field built "error" = JBool true) /\
    (forall data,
       Anki.call_succeeds W data ->
       truthy (property data (js "result")) = true ->
       status designed = 200%Z /\
       field designed "today" = field built "today").
Proof.
  intros Hhost.
  assert (Hanswer : network W [] {| url := js "http://localhost:8765";
                                    method := js "POST";
                                    req_headers :=
                                      [ (js "Content-Type", js "application/json") ];
                                    req_body := Some (JSON_stringify Design.payload_sent) |}
                    = Anki.answer W).
  { unfold Anki.answer. rewrite Hhost. reflexivity. }
  assert (Hdesigned :
            invoke Design.GET W =
              match Anki.answer W with
              | Returned reply =>
                  match resp_json reply with
                  | Returned data =>
                      if nullish data
                      then (Returned {| body := JSON_stringify
                                                  (JObj [ (js "today", JNum 0%float);
                                                          (js "error", JBool true) ]);
                                        status := 503; headers := [] |},
                            [Fetch (Anki.rpc_request (Anki.configured_host W))])
                      else (Returned {| body := JSON_stringify
                                                  (JObj [ (js "today",
                                                           property data (js "result")) ]);
                                        status := 200;
                                        headers :=
                                          [ (js "Content-Type", js "application/json");
                                            (js "Cache-Control",
                                             js "s-maxage=300, stale-while-revalidate=60") ] |},
                            [Fetch (Anki.rpc_request (Anki.configured_host W))])
                  | Thrown _ =>
                      (Returned {| body := JSON_stringify
                                             (JObj [ (js "today", JNum 0%float);
                                                     (js "error", JBool true) ]);
                                   status := 503; headers := [] |},
                       [Fetch (Anki.rpc_request (Anki.configured_host W))])
                  end
              | Thrown _ =>
                  (Returned {| body := JSON_stringify
                                         (JObj [ (js "today", JNum 0%float);
                                                 (js "error", JBool true) ]);
                               status := 503; headers := [] |},
                   [Fetch (Anki.rpc_request (Anki.configured_host W))])
              end).
  { unfold invoke, Design.GET, bind, try_catch, fetch, await, get_prop, ret.
    cbn [requests app]. rewrite Hanswer, Hhost.
    destruct (Anki.answer W) as [reply | e]; [ | reflexivity ].
    destruct (resp_json reply) as [data | e]; [ | reflexivity ].
    destruct (nullish data); reflexivity. }
  destruct (anki_call_settles W) as [Hfails | [data Hsucceeds]].
  - destruct (anki_run_failure W Hfails) as [error Hbuilt].
    unfold settles, effects. rewrite Hdesigned, Hbuilt.
    destruct (Anki.answer W) as [reply | e]; [ destruct (resp_json reply) as [d | e];
                                               [ destruct (nullish d) | ] | ];
      (split; [ reflexivity | ]); eexists _, _;
      (split; [ reflexivity | ]); (split; [ reflexivity | ]);
      (split; [ reflexivity | ]);
      (split; [ first [ left; reflexivity | right; reflexivity ] | ]);
      (split; [ first [ discriminate | intros _; repeat split ] | ]);
      intros data Hsucceeds; exfalso;
      exact (anki_fails_not_succeeds W data Hfails Hsucceeds).
  - pose proof (anki_run_success W data Hsucceeds) as Hbuilt.
    pose proof Hsucceeds as (reply & Ha & Hok & Hj & Hn & He).
    unfold settles, effects. rewrite Hdesigned, Hbuilt, Ha, Hj, Hn.
    split; [ reflexivity | ]. eexists _, _.
    split; [ reflexivity | ]. split; [ reflexivity | ].
    split; [ reflexivity | ]. split; [ left; reflexivity | ].
    split; [ discriminate | ].
    intros data' (reply' & Ha' & _ & Hj' & _) Htruthy.
    rewrite Ha in Ha'. injection Ha' as <-.
    rewrite Hj in Hj'. injection Hj' as <-.
    split; [ reflexivity | ].
    change (field (Anki.reviewed data) "today") with (Anki.reviewed_today data).
    unfold Anki.reviewed_today, js_or. rewrite Htruthy. reflexivity.
Qed.

(** Nothing listens on the port: 503 by the document, 200 as built. *)
Lemma design_route_against_built_witness :
  exists designed built,
    settles Design.GET Sample.anki_offline = Returned designed /\
    settles Anki.GET Sample.anki_offline = Returned built /\
    status designed = 503%Z /\
    status built = 200%Z /\
    field built "today" = JNum 0%float /\
    field built "error" = JBool true.
Proof.
  destruct (design_route_against_built Sample.anki_offline eq_refl)
    as (_ & designed & built & Hd & Hb & Hstatus & _ & Hcaught & _).
  exists designed, built.
  assert (H503 : status designed = 503%Z).
  { vm_compute in Hd. injection Hd as <-. reflexivity. }
  destruct (Hcaught H503) as (_ & _ & Htoday & Herror).
  repeat split; assumption.
Defined.
